(** * pysignalclirestapi: the gateway client of [api.py], embedded in Rocq

    The client wraps the HTTP API of a signal-cli-rest-api server.  Every
    method of the Python class [SignalCliRestApi] is translated below into a
    computation in a small state-and-exception monad:

    - the state holds the client object ([self]) and the log of the HTTP
      requests issued so far;
    - the server, the file system and the two JSON parsers ([json.loads] and
      [requests.Response.json]) are the environment, a parameter of the
      development;
    - Python exceptions are an explicit result, with [try ... except] as a
      handler combinator. *)

From stdpp Require Import gmap strings list.
From Stdlib Require Import ZArith Strings.Ascii Strings.Byte.

Set Warnings "-register-all".

(** ** Python values *)

(** The values that flow through the client: what [json.loads] produces
    (None, bool, int, float, str, list, dict with string keys), plus bytes
    and tuples.  A float is carried by its literal; the client never
    computes with one. *)
Inductive value : Type :=
| VNone
| VBool (b : bool)
| VInt (z : Z)
| VFloat (lit : string)
| VStr (s : string)
| VBytes (bs : list byte)
| VList (l : list value)
| VTuple (l : list value)
| VDict (d : gmap string value).

(** ** Exceptions *)

(** The exception classes the client can meet that are not its own. *)
Inductive builtin_exception : Type :=
| RequestException (detail : string)
| JSONDecodeError (detail : string)
| KeyError (key : string)
| TypeError (detail : string)
| ValueError (detail : string)
| OSError (detail : string).

(** [SignalCliRestApiError] carries its argument and its [__cause__]. *)
Inductive exception : Type :=
| Builtin (e : builtin_exception)
| SignalCliRestApiError (msg : value) (cause : option exception).

(** [exc.__class__ == SignalCliRestApiError] *)
Definition is_SignalCliRestApiError (exc : exception) : bool :=
  match exc with
  | SignalCliRestApiError _ _ => true
  | Builtin _ => false
  end.

Definition is_KeyError (exc : exception) : bool :=
  match exc with
  | Builtin (KeyError _) => true
  | _ => false
  end.

(** ** Operators of Python used by the client *)

(** [needle in hay] on two strings: substring test. *)
Fixpoint str_contains (needle hay : string) : bool :=
  String.prefix needle hay ||
  match hay with
  | EmptyString => false
  | String _ hay' => str_contains needle hay'
  end.

(** [x == needle] for a string [needle]. *)
Definition eq_str (needle : string) (x : value) : bool :=
  match x with
  | VStr s => bool_decide (s = needle)
  | _ => false
  end.

(** [needle in container], for a string [needle]. *)
Definition contains (needle : string) (container : value)
  : builtin_exception + bool :=
  match container with
  | VStr s => inr (str_contains needle s)
  | VList l | VTuple l => inr (existsb (eq_str needle) l)
  | VDict d => inr (bool_decide (is_Some (d !! needle)))
  | VBytes _ => inl (TypeError "a bytes-like object is required, not 'str'")
  | VNone | VBool _ | VInt _ | VFloat _ =>
      inl (TypeError "argument is not iterable")
  end.

(** [container[key]], for a string [key]. *)
Definition getitem (container : value) (key : string)
  : builtin_exception + value :=
  match container with
  | VDict d =>
      match d !! key with
      | Some x => inr x
      | None => inl (KeyError key)
      end
  | VStr _ | VBytes _ | VList _ | VTuple _ =>
      inl (TypeError "indices must be integers")
  | VNone | VBool _ | VInt _ | VFloat _ =>
      inl (TypeError "object is not subscriptable")
  end.

(** [a, b = v]: unpacking into two targets.  The client unpacks only what
    [api_info] returns, a list or a tuple; a dict, whose iteration yields its
    keys in insertion order, is not given an order here and is rejected. *)
Definition unpack2 (v : value) : builtin_exception + (value * value) :=
  match v with
  | VList [a; b] | VTuple [a; b] => inr (a, b)
  | VStr (String a (String b EmptyString)) =>
      inr (VStr (String a EmptyString), VStr (String b EmptyString))
  | VBytes [a; b] => inr (VInt (Z.of_N (Byte.to_N a)), VInt (Z.of_N (Byte.to_N b)))
  | VList _ | VTuple _ | VStr _ | VBytes _ | VDict _ =>
      inl (ValueError "wrong number of values to unpack")
  | VNone | VBool _ | VInt _ | VFloat _ =>
      inl (TypeError "cannot unpack non-iterable object")
  end.

(** ** [helpers.bytes_to_base64] *)

Definition b64_alphabet : string :=
  "ABCDEFGHIJKLMNOPQRSTUVWXYZabcdefghijklmnopqrstuvwxyz0123456789+/".

Definition b64_char (n : N) : ascii :=
  match String.get (N.to_nat n) b64_alphabet with
  | Some c => c
  | None => "="%char
  end.

(** Modelled from the spec: [bytes_to_base64] of the module [helpers], which
    [api.py] imports and which is not part of the sources at hand.  The spec
    says of every attachment that it is "base64-encoded"; this is the
    standard encoding (RFC 4648, with padding), three bytes to four
    characters. *)
Fixpoint bytes_to_base64 (bs : list byte) : string :=
  match bs with
  | [] => ""
  | [a] =>
      let n := Byte.to_N a in
      String (b64_char (n / 4)) (String (b64_char (n mod 4 * 16)) "==")
  | [a; b] =>
      let n := Byte.to_N a in
      let m := Byte.to_N b in
      String (b64_char (n / 4))
        (String (b64_char (n mod 4 * 16 + m / 16))
           (String (b64_char (m mod 16 * 4)) "="))
  | a :: b :: c :: rest =>
      let n := Byte.to_N a in
      let m := Byte.to_N b in
      let k := Byte.to_N c in
      String (b64_char (n / 4))
        (String (b64_char (n mod 4 * 16 + m / 16))
           (String (b64_char (m mod 16 * 4 + k / 64))
              (String (b64_char (k mod 64)) (bytes_to_base64 rest))))
  end.

(** ** Requests, responses, the client object *)

(** [requests.models.HTTPBasicAuth] *)
Record HTTPBasicAuth : Type := {
  username : string;
  password : string
}.

(** The abstract class [SignalCliRestApiAuth]: one method, [get_auth]. *)
Class SignalCliRestApiAuth (A : Type) : Type :=
  get_auth : A -> HTTPBasicAuth.

(** [SignalCliRestApiHTTPBasicAuth(basic_auth_user, basic_auth_pwd)] *)
Record SignalCliRestApiHTTPBasicAuth : Type := {
  basic_auth_user : string;
  basic_auth_pwd : string
}.

#[export] Instance SignalCliRestApiHTTPBasicAuth_auth
  : SignalCliRestApiAuth SignalCliRestApiHTTPBasicAuth :=
  fun a => {| username := basic_auth_user a; password := basic_auth_pwd a |}.

Inductive http_method : Type := GET | POST | PUT | DELETE.

(** One call of [requests.get], [requests.post], [requests.put] or
    [requests.delete], with the keyword arguments the client passes. *)
Record Request : Type := {
  rq_method : http_method;
  rq_url : string;
  rq_json : option value;
  rq_auth : option HTTPBasicAuth;
  rq_verify : bool
}.

Record Response : Type := {
  status_code : Z;
  content : list byte
}.

(** The attributes of a [SignalCliRestApi] object. *)
Record SignalCliRestApi : Type := {
  _base_url : string;
  _number : string;
  _verify_ssl : bool;
  _auth : option HTTPBasicAuth
}.

Definition __init__ {A : Type} `{SignalCliRestApiAuth A}
    (base_url number : string) (auth : option A) (verify_ssl : bool)
  : SignalCliRestApi :=
  {| _base_url := base_url;
     _number := number;
     _verify_ssl := verify_ssl;
     _auth := match auth with
              | Some a => Some (get_auth a)
              | None => None
              end |}.

(** What the client cannot see into.  The server answers a request, given the
    requests it has received before, with a response or with a transport
    failure; a file is read or not; a body is parsed or not. *)
Record Environment : Type := {
  server : list Request -> Request -> builtin_exception + Response;
  open_read : string -> builtin_exception + list byte;
  json_loads : list byte -> builtin_exception + value;
  response_json : Response -> builtin_exception + value
}.

(** ** The monad *)

Record State : Type := {
  self : SignalCliRestApi;
  sent : list Request
}.

Inductive outcome (A : Type) : Type :=
| Return (a : A)
| Raise (e : exception).
Arguments Return {A} a.
Arguments Raise {A} e.

Definition M (A : Type) : Type := State -> outcome A * State.

#[export] Instance M_ret : MRet M := fun A a st => (Return a, st).

#[export] Instance M_bind : MBind M := fun A B f m st =>
  match m st with
  | (Return a, st') => f a st'
  | (Raise e, st') => (Raise e, st')
  end.

Definition raise {A : Type} (e : exception) : M A :=
  fun st => (Raise e, st).

(** [future.utils.raise_from(exc, cause)] *)
Definition raise_from {A : Type} (exc cause : exception) : M A :=
  raise (match exc with
         | SignalCliRestApiError msg _ => SignalCliRestApiError msg (Some cause)
         | Builtin e => Builtin e
         end).

(** [try: body  except Exception as exc: handler] *)
Definition try_except {A : Type} (body : M A) (handler : exception -> M A)
  : M A :=
  fun st =>
    match body st with
    | (Return a, st') => (Return a, st')
    | (Raise exc, st') => handler exc st'
    end.

(** An operation of Python that returns or raises and touches no state. *)
Definition lift {A : Type} (r : builtin_exception + A) : M A :=
  match r with
  | inr a => mret a
  | inl e => raise (Builtin e)
  end.

(** Reading an attribute of [self]. *)
Definition attr {A : Type} (field : SignalCliRestApi -> A) : M A :=
  fun st => (Return (field (self st)), st).

(** A [for] loop that threads an accumulator through its body. *)
Fixpoint for_each {A B : Type} (body : B -> A -> M B) (acc : B) (l : list A)
  : M B :=
  match l with
  | [] => mret acc
  | x :: l' => acc' ← body acc x; for_each body acc' l'
  end.

(** ** The methods of [SignalCliRestApi] *)

Section Client.

Variable env : Environment.

(** [requests.<method>(url, json=..., auth=..., verify=...)]: the request is
    logged, then answered by the server. *)
Definition requests_call (method : http_method) (url : string)
    (json : option value) (auth : option HTTPBasicAuth) (verify : bool)
  : M Response :=
  fun st =>
    let rq := {| rq_method := method; rq_url := url; rq_json := json;
                 rq_auth := auth; rq_verify := verify |} in
    let st' := {| self := self st; sent := sent st ++ [rq] |} in
    match server env (sent st) rq with
    | inr resp => (Return resp, st')
    | inl e => (Raise (Builtin e), st')
    end.

Definition requests_get (url : string) auth verify : M Response :=
  requests_call GET url None auth verify.

Definition requests_post (url : string) (json : value) auth verify
  : M Response :=
  requests_call POST url (Some json) auth verify.

Definition requests_put (url : string) (json : value) auth verify
  : M Response :=
  requests_call PUT url (Some json) auth verify.

Definition requests_delete (url : string) auth verify : M Response :=
  requests_call DELETE url None auth verify.

(** [with open(filename, "rb") as ofile: ofile.read()] *)
Definition read_binary (filename : string) : M (list byte) :=
  lift (open_read env filename).

Definition api_info : M value :=
  try_except
    (base_url ← attr _base_url;
     auth ← attr _auth;
     verify ← attr _verify_ssl;
     resp ← requests_get (base_url +:+ "/v1/about") auth verify;
     if (status_code resp =? 404)%Z then
       mret (VList [VStr "v1"; VInt 1])
     else
       data ← lift (json_loads env (content resp));
       api_versions ← lift (getitem data "versions");
       build_nr ← try_except
                    (lift (getitem data "build"))
                    (fun exc =>
                       if is_KeyError exc then mret (VInt 1) else raise exc);
       mret (VTuple [api_versions; build_nr]))
    (fun exc =>
       raise_from
         (SignalCliRestApiError (VStr "Couldn't determine REST API version")
            None)
         exc).

Definition mode : M value :=
  base_url ← attr _base_url;
  auth ← attr _auth;
  verify ← attr _verify_ssl;
  resp ← requests_get (base_url +:+ "/v1/about") auth verify;
  data ← lift (json_loads env (content resp));
  try_except
    (lift (getitem data "mode"))
    (fun exc => if is_KeyError exc then mret (VStr "unknown") else raise exc).

(** The block every method but [api_info] and [mode] runs on a response it
    does not accept:
    [if "error" in json_resp: raise SignalCliRestApiError(json_resp["error"])]
    followed by [raise SignalCliRestApiError(generic)]. *)
Definition raise_error_of {A : Type} (json_resp : value) (generic : string)
  : M A :=
  has_error ← lift (contains "error" json_resp);
  if has_error : bool then
    err ← lift (getitem json_resp "error");
    raise (SignalCliRestApiError err None)
  else
    raise (SignalCliRestApiError (VStr generic) None).

(** The handler every method but [api_info] and [mode] ends with:
    [if exc.__class__ == SignalCliRestApiError: raise exc]
    followed by [raise_from(SignalCliRestApiError(message), exc)]. *)
Definition reraise {A : Type} (message : string) (exc : exception) : M A :=
  if is_SignalCliRestApiError exc then raise exc
  else raise_from (SignalCliRestApiError (VStr message) None) exc.

Definition create_group (name members : value) : M value :=
  try_except
    (base_url ← attr _base_url;
     number ← attr _number;
     let url := base_url +:+ "/v1/groups/" +:+ number in
     let data : gmap string value :=
       <["name" := name]> (<["members" := members]> ∅) in
     auth ← attr _auth;
     verify ← attr _verify_ssl;
     resp ← requests_post url (VDict data) auth verify;
     if negb (status_code resp =? 201)%Z && negb (status_code resp =? 200)%Z
     then
       json_resp ← lift (response_json env resp);
       raise_error_of json_resp
         "Unknown error while creating Signal Messenger group"
     else
       body ← lift (response_json env resp);
       lift (getitem body "id"))
    (reraise "Couldn't create Signal Messenger group: ").

Definition list_groups : M value :=
  try_except
    (base_url ← attr _base_url;
     number ← attr _number;
     let url := base_url +:+ "/v1/groups/" +:+ number in
     auth ← attr _auth;
     verify ← attr _verify_ssl;
     resp ← requests_get url auth verify;
     json_resp ← lift (response_json env resp);
     if negb (status_code resp =? 200)%Z then
       raise_error_of json_resp
         "Unknown error while listing Signal Messenger groups"
     else
       mret json_resp)
    (reraise "Couldn't list Signal Messenger groups: ").

Definition receive : M value :=
  try_except
    (base_url ← attr _base_url;
     number ← attr _number;
     let url := base_url +:+ "/v1/receive/" +:+ number in
     auth ← attr _auth;
     verify ← attr _verify_ssl;
     resp ← requests_get url auth verify;
     json_resp ← lift (response_json env resp);
     if negb (status_code resp =? 200)%Z then
       raise_error_of json_resp
         "Unknown error while receiving Signal Messenger data"
     else
       mret json_resp)
    (reraise "Couldn't receive Signal Messenger data: ").

Definition update_profile (name : value) (filename : option string)
  : M unit :=
  try_except
    (base_url ← attr _base_url;
     number ← attr _number;
     let url := base_url +:+ "/v1/profiles/" +:+ number in
     let data : gmap string value := <["name" := name]> ∅ in
     data ← match filename with
            | Some filename =>
                bytes ← read_binary filename;
                let base64_avatar := bytes_to_base64 bytes in
                mret (<["base64_avatar" := VStr base64_avatar]> data)
            | None => mret data
            end;
     auth ← attr _auth;
     verify ← attr _verify_ssl;
     resp ← requests_put url (VDict data) auth verify;
     if negb (status_code resp =? 204)%Z then
       json_resp ← lift (response_json env resp);
       raise_error_of json_resp "Unknown error while updating profile"
     else
       mret ())
    (reraise "Couldn't update profile: ").

(** [len(filenames) > 1], guarded by [filenames is not None]. *)
Definition several (filenames : option (list string)) : bool :=
  match filenames with
  | Some l => bool_decide (1 < length l)
  | None => false
  end.

Definition send_message (message recipients : value)
    (filenames : option (list string))
    (attachments_as_bytes : option (list (list byte)))
  : M unit :=
  info ← api_info;
  '(api_versions, build_nr) ← lift (unpack2 info);
  _ ← (if several filenames then
         has_v2 ← lift (contains "v2" api_versions);
         if negb has_v2 then
           raise (SignalCliRestApiError
                    (VStr "This signal-cli-rest-api version is not capable of sending multiple attachments. Please upgrade your signal-cli-rest-api docker container!")
                    None)
         else mret ()
       else mret ());
  base_url ← attr _base_url;
  let url := base_url +:+ "/v2/send" in
  has_v2 ← lift (contains "v2" api_versions);
  url ← (if negb has_v2 then
           base_url ← attr _base_url;
           mret (base_url +:+ "/v1/send")
         else mret url);
  number ← attr _number;
  let data : gmap string value :=
    <["number" := VStr number]> (<["message" := message]> ∅) in
  let data := <["recipients" := recipients]> data in
  try_except
    (has_v2 ← lift (contains "v2" api_versions);
     data ← (if has_v2 : bool then
               let base64_attachments :=
                 match attachments_as_bytes with
                 | None => []
                 | Some l =>
                     map (fun attachment => VStr (bytes_to_base64 attachment)) l
                 end in
               base64_attachments ←
                 match filenames with
                 | Some l =>
                     for_each
                       (fun acc filename =>
                          bytes ← read_binary filename;
                          let base64_attachment := bytes_to_base64 bytes in
                          mret (acc ++ [VStr base64_attachment]))
                       base64_attachments l
                 | None => mret base64_attachments
                 end;
               mret (<["base64_attachments" := VList base64_attachments]> data)
             else
               match filenames with
               | Some [filename] =>
                   bytes ← read_binary filename;
                   let base64_attachment := bytes_to_base64 bytes in
                   mret (<["base64_attachment" := VStr base64_attachment]> data)
               | _ => mret data
               end);
     auth ← attr _auth;
     verify ← attr _verify_ssl;
     resp ← requests_post url (VDict data) auth verify;
     if negb (status_code resp =? 201)%Z then
       json_resp ← lift (response_json env resp);
       raise_error_of json_resp "Unknown error while sending signal message"
     else
       mret ())
    (reraise "Couldn't send signal message").

Definition list_attachments : M value :=
  try_except
    (base_url ← attr _base_url;
     let url := base_url +:+ "/v1/attachments" in
     auth ← attr _auth;
     verify ← attr _verify_ssl;
     resp ← requests_get url auth verify;
     if negb (status_code resp =? 200)%Z then
       json_resp ← lift (response_json env resp);
       raise_error_of json_resp "Unknown error while listing attachments"
     else
       lift (response_json env resp))
    (reraise "Couldn't list attachments: ").

Definition get_attachment (attachment_id : string) : M value :=
  try_except
    (base_url ← attr _base_url;
     let url := base_url +:+ "/v1/attachments/" +:+ attachment_id in
     auth ← attr _auth;
     verify ← attr _verify_ssl;
     resp ← requests_get url auth verify;
     if negb (status_code resp =? 200)%Z then
       json_resp ← lift (response_json env resp);
       raise_error_of json_resp "Unknown error while getting attachment"
     else
       mret (VBytes (content resp)))
    (reraise "Couldn't get attachment: ").

Definition delete_attachment (attachment_id : string) : M unit :=
  try_except
    (base_url ← attr _base_url;
     let url := base_url +:+ "/v1/attachments/" +:+ attachment_id in
     auth ← attr _auth;
     verify ← attr _verify_ssl;
     resp ← requests_delete url auth verify;
     if negb (status_code resp =? 204)%Z then
       json_resp ← lift (response_json env resp);
       raise_error_of json_resp "Unknown error while deleting attachment"
     else
       mret ())
    (reraise "Couldn't delete attachment: ").

End Client.

(** ** Calls of the public methods *)

(** A call of one of the ten public methods, with its arguments. *)
Inductive operation : Type :=
| ApiInfo
| Mode
| CreateGroup (name members : value)
| ListGroups
| Receive
| UpdateProfile (name : value) (filename : option string)
| SendMessage (message recipients : value) (filenames : option (list string))
    (attachments_as_bytes : option (list (list byte)))
| ListAttachments
| GetAttachment (attachment_id : string)
| DeleteAttachment (attachment_id : string).

(** Running a call; a method without [return] yields [None]. *)
Definition call (env : Environment) (op : operation) : M value :=
  match op with
  | ApiInfo => api_info env
  | Mode => mode env
  | CreateGroup name members => create_group env name members
  | ListGroups => list_groups env
  | Receive => receive env
  | UpdateProfile name filename =>
      _ ← update_profile env name filename; mret VNone
  | SendMessage message recipients filenames attachments_as_bytes =>
      _ ← send_message env message recipients filenames attachments_as_bytes;
      mret VNone
  | ListAttachments => list_attachments env
  | GetAttachment attachment_id => get_attachment env attachment_id
  | DeleteAttachment attachment_id =>
      _ ← delete_attachment env attachment_id; mret VNone
  end.

(** A session: calls made one after the other on the same client, whatever
    each of them returns or raises. *)
Fixpoint calls (env : Environment) (ops : list operation) (st : State)
  : State :=
  match ops with
  | [] => st
  | op :: ops' => calls env ops' (call env op st).2
  end.

(** ** Vocabulary of the statements *)

(** The request a client [c] issues for [method] on [path]. *)
Definition request_of (c : SignalCliRestApi) (method : http_method)
    (path : string) (json : option value) : Request :=
  {| rq_method := method; rq_url := _base_url c +:+ path; rq_json := json;
     rq_auth := _auth c; rq_verify := _verify_ssl c |}.

(** The request to the info endpoint. *)
Definition about (c : SignalCliRestApi) : Request :=
  request_of c GET "/v1/about" None.

(** The state once [rq] has been issued. *)
Definition log (st : State) (rq : Request) : State :=
  {| self := self st; sent := sent st ++ [rq] |}.

(** The methods that look at the status of the response they get:
    all but [api_info] (which looks for 404 only) and [mode]. *)
Definition checks_status (op : operation) : bool :=
  match op with
  | ApiInfo | Mode => false
  | _ => true
  end.

(** The HTTP method of the request whose response a method checks. *)
Definition endpoint_method (op : operation) : http_method :=
  match op with
  | ApiInfo | Mode | ListGroups | Receive | ListAttachments
  | GetAttachment _ => GET
  | CreateGroup _ _ | SendMessage _ _ _ _ => POST
  | UpdateProfile _ _ => PUT
  | DeleteAttachment _ => DELETE
  end.

(** The statuses a method accepts. *)
Definition accepted (op : operation) (status : Z) : bool :=
  match op with
  | CreateGroup _ _ => (status =? 201)%Z || (status =? 200)%Z
  | SendMessage _ _ _ _ => (status =? 201)%Z
  | UpdateProfile _ _ | DeleteAttachment _ => (status =? 204)%Z
  | ApiInfo | Mode | ListGroups | Receive | ListAttachments
  | GetAttachment _ => (status =? 200)%Z
  end.

(** The message a method raises on a response that it does not accept and
    that names no error. *)
Definition generic_message (op : operation) : string :=
  match op with
  | ApiInfo | Mode => ""
  | CreateGroup _ _ => "Unknown error while creating Signal Messenger group"
  | ListGroups => "Unknown error while listing Signal Messenger groups"
  | Receive => "Unknown error while receiving Signal Messenger data"
  | UpdateProfile _ _ => "Unknown error while updating profile"
  | SendMessage _ _ _ _ => "Unknown error while sending signal message"
  | ListAttachments => "Unknown error while listing attachments"
  | GetAttachment _ => "Unknown error while getting attachment"
  | DeleteAttachment _ => "Unknown error while deleting attachment"
  end.

(** The error [send_message] raises when several files are to be sent to a
    server without "v2". *)
Definition capability_error : exception :=
  SignalCliRestApiError
    (VStr "This signal-cli-rest-api version is not capable of sending multiple attachments. Please upgrade your signal-cli-rest-api docker container!")
    None.

(** One attachment as it appears in a payload. *)
Definition encoded (bytes : list byte) : value :=
  VStr (bytes_to_base64 bytes).

(** Reading files one after the other, up to the first failure. *)
Fixpoint read_files (env : Environment) (filenames : list string)
  : builtin_exception + list (list byte) :=
  match filenames with
  | [] => inr []
  | filename :: rest =>
      match open_read env filename with
      | inl e => inl e
      | inr bytes =>
          match read_files env rest with
          | inl e => inl e
          | inr others => inr (bytes :: others)
          end
      end
  end.

(** The payload common to both wire formats. *)
Definition base_payload (c : SignalCliRestApi) (message recipients : value)
  : gmap string value :=
  <["recipients" := recipients]>
    (<["number" := VStr (_number c)]> (<["message" := message]> ∅)).

(** A computation keeps [self] when the client object is the same after it
    as before it, whatever it returns or raises. *)
Definition keeps_self {A : Type} (m : M A) : Prop :=
  forall st, self (m st).2 = self st.

(** A computation is uniform in its errors when it raises nothing but
    [SignalCliRestApiError]. *)
Definition uniform {A : Type} (m : M A) : Prop :=
  forall st exc, (m st).1 = Raise exc -> is_SignalCliRestApiError exc = true.

(** ** The blocks of [send_message] *)

(** The body of the [try] of [send_message] falls into two blocks, named
    here so that each can be reasoned about on its own: the encoding of the
    attachments into the payload, and the request with the check of its
    response. *)
Definition encode_attachments (env : Environment) (has_v2 : bool)
    (data : gmap string value) (filenames : option (list string))
    (attachments_as_bytes : option (list (list byte)))
  : M (gmap string value) :=
  if has_v2 then
    let base64_attachments :=
      match attachments_as_bytes with
      | None => []
      | Some l => map (fun attachment => VStr (bytes_to_base64 attachment)) l
      end in
    base64_attachments ←
      match filenames with
      | Some l =>
          for_each
            (fun acc filename =>
               bytes ← read_binary env filename;
               let base64_attachment := bytes_to_base64 bytes in
               mret (acc ++ [VStr base64_attachment]))
            base64_attachments l
      | None => mret base64_attachments
      end;
    mret (<["base64_attachments" := VList base64_attachments]> data)
  else
    match filenames with
    | Some [filename] =>
        bytes ← read_binary env filename;
        let base64_attachment := bytes_to_base64 bytes in
        mret (<["base64_attachment" := VStr base64_attachment]> data)
    | _ => mret data
    end.

Definition post_and_check (env : Environment) (url : string)
    (data : gmap string value) : M unit :=
  auth ← attr _auth;
  verify ← attr _verify_ssl;
  resp ← requests_post env url (VDict data) auth verify;
  if negb (status_code resp =? 201)%Z then
    json_resp ← lift (response_json env resp);
    raise_error_of json_resp "Unknown error while sending signal message"
  else
    mret ().

(** The path of the send endpoint for a server with or without "v2". *)
Definition send_path (has_v2 : bool) : string :=
  if has_v2 then "/v2/send" else "/v1/send".

(** The payload of a send request, or the failure to read a file of it:
    with "v2", every attachment given as bytes, then every file, in the one
    list "base64_attachments"; without, the one file, if there is exactly
    one, in "base64_attachment". *)
Definition payload (env : Environment) (has_v2 : bool)
    (data : gmap string value) (filenames : option (list string))
    (attachments_as_bytes : option (list (list byte)))
  : builtin_exception + gmap string value :=
  if has_v2 then
    match read_files env (default [] filenames) with
    | inl e => inl e
    | inr files =>
        inr (<["base64_attachments" :=
                 VList (map encoded (default [] attachments_as_bytes)
                        ++ map encoded files)]> data)
    end
  else
    match filenames with
    | Some [filename] =>
        match open_read env filename with
        | inl e => inl e
        | inr bytes => inr (<["base64_attachment" := encoded bytes]> data)
        end
    | _ => inr data
    end.

(** The server, asked now, advertises "v2" or does not: [api_info] returns,
    what it returns unpacks into versions and build number, and the test
    ["v2" in api_versions] evaluates to [has_v2]. *)
Definition advertises (env : Environment) (st : State) (has_v2 : bool)
  : Prop :=
  exists info api_versions build_nr,
    (api_info env st).1 = Return info
    /\ unpack2 info = inr (api_versions, build_nr)
    /\ contains "v2" api_versions = inr has_v2.

(** ** Sample clients and servers *)

Definition sample_client : SignalCliRestApi :=
  __init__ "http://localhost:8080" "+4912345"
    (Some {| basic_auth_user := "user"; basic_auth_pwd := "secret" |}) true.

Definition fresh : State := {| self := sample_client; sent := [] |}.

(** Two files on disk, [a.png] and [b.png]; nothing else can be opened. *)
Definition sample_files (filename : string)
  : builtin_exception + list byte :=
  if bool_decide (filename = "a.png") then inr [x01; x02; x03]
  else if bool_decide (filename = "b.png") then inr [xff]
  else inl (OSError "No such file or directory").

(** A server that answers every GET with status [get_status] and every other
    request with status [status]; every body parsed with [json.loads] is
    [info], every body parsed with [Response.json] is [body]. *)
Definition sample_env (get_status status : Z)
    (info body : builtin_exception + value) : Environment :=
  {| server := fun _ rq =>
       inr {| status_code := match rq_method rq with
                             | GET => get_status
                             | _ => status
                             end;
              content := [] |};
     open_read := sample_files;
     json_loads := fun _ => info;
     response_json := fun _ => body |}.

(** A server that cannot be reached. *)
Definition unreachable : Environment :=
  {| server := fun _ _ => inl (RequestException "Connection refused");
     open_read := sample_files;
     json_loads := fun _ => inl (JSONDecodeError "Expecting value");
     response_json := fun _ => inl (JSONDecodeError "Expecting value") |}.

(** The info bodies of a server with the newer protocol and of one with the
    legacy protocol only. *)
Definition info_v2 : value :=
  VDict (<["versions" := VList [VStr "v1"; VStr "v2"]]>
           (<["build" := VInt 2]> (<["mode" := VStr "normal"]> ∅))).

Definition info_v1 : value :=
  VDict (<["versions" := VList [VStr "v1"]]> ∅).

(** ** Sample calls *)

(** A server with the legacy protocol only, one with the newer protocol, and
    one too old to have an info endpoint; all three accept what is sent. *)
Definition legacy_server : Environment :=
  sample_env 200 201 (inr info_v1) (inr VNone).

Definition v2_server : Environment :=
  sample_env 200 201 (inr info_v2) (inr VNone).

Definition old_server : Environment :=
  sample_env 404 201 (inl (JSONDecodeError "Expecting value")) (inr VNone).

(** A server that answers everything with status 500: the body of the info
    endpoint still gives the versions, the other bodies are not JSON. *)
Definition failing_server : Environment :=
  sample_env 500 500 (inr info_v1) (inl (JSONDecodeError "Expecting value")).

(** A server with the newer protocol that rejects what is sent with status
    400 and names the error. *)
Definition rejecting_server : Environment :=
  sample_env 200 400 (inr info_v2)
    (inr (VDict (<["error" := VStr "Invalid recipient"]> ∅))).

(** A server whose info body gives a number for the versions. *)
Definition odd_server : Environment :=
  sample_env 200 201 (inr (VDict (<["versions" := VInt 2]> ∅))) (inr VNone).

Definition hello : value := VStr "hello".

Definition to_alice : value := VList [VStr "+4911111"].

(** Two files for a server with the legacy protocol only. *)
Definition two_files_to_legacy_server : outcome unit * State :=
  send_message legacy_server hello to_alice (Some ["a.png"; "b.png"]) None
    fresh.
(** ** Vocabulary of the methods with one endpoint *)

(** The message of the error in which a method wraps an exception that is
    not a [SignalCliRestApiError]; [mode] wraps nothing. *)
Definition wrapper_message (op : operation) : string :=
  match op with
  | ApiInfo => "Couldn't determine REST API version"
  | Mode => ""
  | CreateGroup _ _ => "Couldn't create Signal Messenger group: "
  | ListGroups => "Couldn't list Signal Messenger groups: "
  | Receive => "Couldn't receive Signal Messenger data: "
  | UpdateProfile _ _ => "Couldn't update profile: "
  | SendMessage _ _ _ _ => "Couldn't send signal message"
  | ListAttachments => "Couldn't list attachments: "
  | GetAttachment _ => "Couldn't get attachment: "
  | DeleteAttachment _ => "Couldn't delete attachment: "
  end.

(** An exception [e] once a method has wrapped it: the error of the method,
    with [e] as its cause. *)
Definition wrapped (op : operation) (e : builtin_exception) : exception :=
  SignalCliRestApiError (VStr (wrapper_message op)) (Some (Builtin e)).

(** The payload of [create_group]. *)
Definition group_payload (name members : value) : gmap string value :=
  <["name" := name]> (<["members" := members]> ∅).

(** The request of [update_profile], with or without an avatar. *)
Definition profile_request (c : SignalCliRestApi) (name : value)
    (avatar : option (list byte)) : Request :=
  request_of c PUT ("/v1/profiles/" +:+ _number c)
    (Some (VDict (match avatar with
                  | Some bytes =>
                      <["base64_avatar" := encoded bytes]>
                        (<["name" := name]> ∅)
                  | None => <["name" := name]> ∅
                  end))).

(** The request of a call that issues exactly one request whatever happens:
    every call but [send_message] and [update_profile] with a file. *)
Definition single_request (c : SignalCliRestApi) (op : operation)
  : option Request :=
  match op with
  | ApiInfo | Mode => Some (about c)
  | CreateGroup name members =>
      Some (request_of c POST ("/v1/groups/" +:+ _number c)
              (Some (VDict (group_payload name members))))
  | ListGroups => Some (request_of c GET ("/v1/groups/" +:+ _number c) None)
  | Receive => Some (request_of c GET ("/v1/receive/" +:+ _number c) None)
  | UpdateProfile name None => Some (profile_request c name None)
  | UpdateProfile _ (Some _) | SendMessage _ _ _ _ => None
  | ListAttachments => Some (request_of c GET "/v1/attachments" None)
  | GetAttachment attachment_id =>
      Some (request_of c GET ("/v1/attachments/" +:+ attachment_id) None)
  | DeleteAttachment attachment_id =>
      Some (request_of c DELETE ("/v1/attachments/" +:+ attachment_id) None)
  end.

(** What a method raises on a response it does not accept, given the parsed
    body of the response or the failure to parse it. *)
Definition rejection (op : operation) (body : builtin_exception + value)
  : exception :=
  match body with
  | inl e => wrapped op e
  | inr json_resp =>
      match contains "error" json_resp with
      | inl e => wrapped op e
      | inr false => SignalCliRestApiError (VStr (generic_message op)) None
      | inr true =>
          match getitem json_resp "error" with
          | inl e => wrapped op e
          | inr err => SignalCliRestApiError err None
          end
      end
  end.

(** What a method that checks the status of its response returns or raises,
    given the answer to the request it made to its endpoint. *)
Definition after (env : Environment) (op : operation)
    (answer : builtin_exception + Response) : outcome value :=
  match answer with
  | inl e => Raise (wrapped op e)
  | inr resp =>
      if accepted op (status_code resp) then
        match op with
        | CreateGroup _ _ =>
            match response_json env resp with
            | inl e => Raise (wrapped op e)
            | inr body =>
                match getitem body "id" with
                | inl e => Raise (wrapped op e)
                | inr id => Return id
                end
            end
        | ListGroups | Receive | ListAttachments =>
            match response_json env resp with
            | inl e => Raise (wrapped op e)
            | inr body => Return body
            end
        | GetAttachment _ => Return (VBytes (content resp))
        | _ => Return VNone
        end
      else Raise (rejection op (response_json env resp))
  end.

(** A request made with the configuration of the client [c]: its
    credentials, its verify-TLS flag, and a URL under its base address. *)
Definition configured (c : SignalCliRestApi) (rq : Request) : Prop :=
  rq_auth rq = _auth c
  /\ rq_verify rq = _verify_ssl c
  /\ exists path, rq_url rq = _base_url c +:+ path.

(** The file an avatar is read from, and what was read. *)
Definition avatar_read (env : Environment) (filename : option string)
    (avatar : option (list byte)) : Prop :=
  match filename, avatar with
  | None, None => True
  | Some filename, Some bytes => open_read env filename = inr bytes
  | _, _ => False
  end.

(** ** More sample servers *)

(** A server that answers everything with status 200 and the body of a
    group that was created. *)
Definition group_server : Environment :=
  sample_env 200 200 (inr info_v2)
    (inr (VDict (<["id" := VStr "group.c2lnbmFs"]> ∅))).

(** A server that answers everything with status 204 and no body. *)
Definition no_content_server : Environment :=
  sample_env 204 204 (inl (JSONDecodeError "Expecting value"))
    (inl (JSONDecodeError "Expecting value")).

(** A server whose info body is a list. *)
Definition list_server : Environment :=
  sample_env 200 201 (inr (VList [VStr "v1"])) (inr VNone).

(** A server that answers everything with status 200 and the first bytes of
    a PNG file, which are no JSON. *)
Definition attachment_server : Environment :=
  {| server := fun _ _ =>
       inr {| status_code := 200; content := [x89; x50; x4e; x47] |};
     open_read := sample_files;
     json_loads := fun _ => inl (JSONDecodeError "Expecting value");
     response_json := fun _ => inl (JSONDecodeError "Expecting value") |}.

(** A server that answers everything with status 500 and a body that is a
    JSON string. *)
Definition plain_text_server : Environment :=
  sample_env 500 500 (inr info_v1) (inr (VStr "internal error")).


(** * Properties *)

Section Properties.

Variable env : Environment.

(** ** Running the monad *)

Lemma bind_run {A B : Type} (m : M A) (f : A -> M B) (st : State) :
  (m ≫= f) st = match m st with
                | (Return a, st') => f a st'
                | (Raise e, st') => (Raise e, st')
                end.
Proof. reflexivity. Qed.

Lemma last_request_inv {A : Type} (l pre : list A) (x y : A) :
  l ++ [x] = l ++ pre ++ [y] -> pre = [] /\ y = x.
Proof.
  intros H. apply app_inv_head in H.
  destruct pre as [|a pre]; simplify_eq/=; [done|].
  by destruct pre.
Qed.

Lemma no_request_inv {A : Type} (l pre : list A) (y : A) :
  l = l ++ pre ++ [y] -> False.
Proof.
  intros H. apply (f_equal length) in H.
  rewrite !length_app in H. simpl in H. lia.
Qed.

(** Unfolding the monad and its primitives down to matches. *)
Ltac unfold_monad :=
  unfold read_binary, requests_get, requests_post, requests_put,
    requests_delete, requests_call, reraise, raise_error_of, try_except,
    raise_from, raise, lift, attr, mbind, M_bind, mret, M_ret in *;
  cbn in *.

(** ** The client object is never written *)

Lemma keeps_self_ret {A : Type} (a : A) : keeps_self (mret a).
Proof. by intros st. Qed.

Lemma keeps_self_raise {A : Type} (e : exception) : keeps_self (@raise A e).
Proof. by intros st. Qed.

Lemma keeps_self_raise_from {A : Type} (e cause : exception) :
  keeps_self (@raise_from A e cause).
Proof. by intros st. Qed.

Lemma keeps_self_lift {A : Type} (r : builtin_exception + A) :
  keeps_self (lift r).
Proof. by destruct r; intros st. Qed.

Lemma keeps_self_attr {A : Type} (field : SignalCliRestApi -> A) :
  keeps_self (attr field).
Proof. by intros st. Qed.

Lemma keeps_self_bind {A B : Type} (m : M A) (f : A -> M B) :
  keeps_self m -> (forall a, keeps_self (f a)) -> keeps_self (m ≫= f).
Proof.
  intros Hm Hf st. rewrite bind_run. specialize (Hm st).
  destruct (m st) as [[a|e] st']; simpl in *; [|done].
  by rewrite Hf.
Qed.

Lemma keeps_self_try_except {A : Type} (m : M A) (h : exception -> M A) :
  keeps_self m -> (forall exc, keeps_self (h exc)) ->
  keeps_self (try_except m h).
Proof.
  intros Hm Hh st. unfold try_except. specialize (Hm st).
  destruct (m st) as [[a|e] st']; simpl in *; [done|].
  by rewrite Hh.
Qed.

Lemma keeps_self_requests_call method url json auth verify :
  keeps_self (requests_call env method url json auth verify).
Proof. intros st. unfold requests_call. by destruct (server env _ _). Qed.

Lemma keeps_self_for_each {A B : Type} (body : B -> A -> M B) (l : list A) :
  (forall acc x, keeps_self (body acc x)) ->
  forall acc, keeps_self (for_each body acc l).
Proof.
  intros Hbody. induction l as [|x l IH]; intros acc; simpl.
  - apply keeps_self_ret.
  - apply keeps_self_bind; auto.
Qed.

Lemma keeps_self_raise_error_of {A : Type} json_resp generic :
  keeps_self (@raise_error_of A json_resp generic).
Proof.
  unfold raise_error_of. apply keeps_self_bind; [apply keeps_self_lift|].
  intros [|]; [|apply keeps_self_raise].
  apply keeps_self_bind; [apply keeps_self_lift|].
  intros err. apply keeps_self_raise.
Qed.

Lemma keeps_self_reraise {A : Type} message exc :
  keeps_self (@reraise A message exc).
Proof.
  unfold reraise. destruct (is_SignalCliRestApiError exc);
    [apply keeps_self_raise | apply keeps_self_raise_from].
Qed.

Create HintDb frame.

#[local] Hint Resolve keeps_self_ret keeps_self_raise keeps_self_raise_from
  keeps_self_lift keeps_self_attr keeps_self_requests_call
  keeps_self_raise_error_of keeps_self_reraise : frame.

(** One step of a frame proof: split the computation at its head. *)
Ltac frame_step :=
  first
    [ apply keeps_self_bind
    | apply keeps_self_try_except
    | apply keeps_self_for_each
    | progress eauto with frame
    | progress intros
    | match goal with
      | |- keeps_self (if ?b then _ else _) => destruct b
      | |- keeps_self (match ?x with _ => _ end) => destruct x
      | |- keeps_self (let '(_, _) := ?x in _) => destruct x
      end ].

Ltac frame :=
  unfold requests_get, requests_post, requests_put, requests_delete,
    read_binary;
  repeat frame_step.

Lemma keeps_self_api_info : keeps_self (api_info env).
Proof. unfold api_info. frame. Qed.

Lemma keeps_self_mode : keeps_self (mode env).
Proof. unfold mode. frame. Qed.

Lemma keeps_self_send_message message recipients filenames attachments :
  keeps_self (send_message env message recipients filenames attachments).
Proof.
  unfold send_message.
  apply keeps_self_bind; [apply keeps_self_api_info|]. frame.
Qed.

Lemma keeps_self_call (op : operation) : keeps_self (call env op).
Proof.
  destruct op; simpl;
    try (apply keeps_self_bind; [|intros; apply keeps_self_ret]);
    try apply keeps_self_api_info; try apply keeps_self_mode;
    try apply keeps_self_send_message.
  all: unfold create_group, list_groups, receive, update_profile,
    list_attachments, get_attachment, delete_attachment; frame.
Qed.

Lemma keeps_self_calls (ops : list operation) (st : State) :
  self (calls env ops st) = self st.
Proof.
  revert st. induction ops as [|op ops IH]; intros st; simpl; [done|].
  by rewrite IH, keeps_self_call.
Qed.

(** ** [api_info] *)

Lemma api_info_run (st : State) :
  api_info env st =
  (match server env (sent st) (about (self st)) with
   | inl e =>
       Raise (SignalCliRestApiError
                (VStr "Couldn't determine REST API version")
                (Some (Builtin e)))
   | inr resp =>
       if (status_code resp =? 404)%Z then Return (VList [VStr "v1"; VInt 1])
       else
         match json_loads env (content resp) with
         | inl e =>
             Raise (SignalCliRestApiError
                      (VStr "Couldn't determine REST API version")
                      (Some (Builtin e)))
         | inr data =>
             match getitem data "versions" with
             | inl e =>
                 Raise (SignalCliRestApiError
                          (VStr "Couldn't determine REST API version")
                          (Some (Builtin e)))
             | inr api_versions =>
                 match getitem data "build" with
                 | inr build_nr => Return (VTuple [api_versions; build_nr])
                 | inl (KeyError _) => Return (VTuple [api_versions; VInt 1])
                 | inl e =>
                     Raise (SignalCliRestApiError
                              (VStr "Couldn't determine REST API version")
                              (Some (Builtin e)))
                 end
             end
         end
   end, log st (about (self st))).
Proof.
  unfold api_info, about, request_of, log. unfold_monad.
  destruct (server env _ _) as [e|resp]; cbn; [done|].
  destruct (status_code resp =? 404)%Z; cbn; [done|].
  destruct (json_loads env _) as [e|data]; cbn; [done|].
  destruct (getitem data "versions") as [e|vs]; cbn; [done|].
  destruct (getitem data "build") as [e|b]; cbn; [|done].
  by destruct e.
Qed.

(** What [api_info] returns can always be unpacked into two values. *)
Lemma api_info_unpacks (st : State) (info : value) :
  (api_info env st).1 = Return info ->
  exists api_versions build_nr, unpack2 info = inr (api_versions, build_nr).
Proof.
  rewrite api_info_run. cbn. intros H.
  repeat case_match; simplify_eq; eauto.
Qed.

Lemma api_info_sent (st : State) :
  (api_info env st).2 = log st (about (self st)).
Proof. by rewrite api_info_run. Qed.

(** C1.  On a 404 from the info endpoint [api_info] raises nothing and
    returns the two-element list ["v1", 1]: the string "v1" next to the
    build number 1, not the pair of the list ["v1"] and 1. *)
Theorem api_info_not_found (st : State) (resp : Response) :
  server env (sent st) (about (self st)) = inr resp ->
  status_code resp = 404%Z ->
  api_info env st
    = (Return (VList [VStr "v1"; VInt 1]), log st (about (self st)))
  /\ VList [VStr "v1"; VInt 1] <> VTuple [VList [VStr "v1"]; VInt 1].
Proof.
  intros Hresp Hstatus. split; [|done].
  rewrite api_info_run, Hresp, Hstatus. reflexivity.
Qed.

(** ** [mode] *)

(** C8.  When the info response is an object, [mode] returns its "mode"
    field if it has one and "unknown" if it has none; it does not raise. *)
Theorem mode_field_or_unknown (st : State) (resp : Response)
    (d : gmap string value) :
  server env (sent st) (about (self st)) = inr resp ->
  json_loads env (content resp) = inr (VDict d) ->
  (mode env st).1 = Return (default (VStr "unknown") (d !! "mode")).
Proof.
  intros Hresp Hdata. unfold mode, about, request_of in *. unfold_monad.
  rewrite Hresp. cbn. rewrite Hdata. cbn.
  by destruct (d !! "mode").
Qed.

(** C5.  [mode] has no handler: a transport failure of its request, or a
    body that does not parse, leaves [mode] as the exception it is, not as a
    [SignalCliRestApiError]. *)
Theorem mode_lets_failures_escape (st : State) (e : builtin_exception) :
  server env (sent st) (about (self st)) = inl e
  \/ (exists resp, server env (sent st) (about (self st)) = inr resp
                   /\ json_loads env (content resp) = inl e) ->
  (mode env st).1 = Raise (Builtin e).
Proof.
  unfold mode, about, request_of. unfold_monad.
  intros [Hfail | (resp & Hresp & Hparse)].
  - by rewrite Hfail.
  - rewrite Hresp. cbn. by rewrite Hparse.
Qed.

(** ** Responses that are not accepted *)

(** Case analysis on the innermost test a computation is stuck on. *)
Ltac inner_destruct :=
  match goal with
  | |- context [match ?x with _ => _ end] =>
      lazymatch x with
      | context [match _ with _ => _ end] => fail
      | _ => destruct x eqn:?
      end
  | H : context [match ?x with _ => _ end] |- _ =>
      lazymatch x with
      | context [match _ with _ => _ end] => fail
      | _ => destruct x eqn:?
      end
  end; cbn in *.

(** Two equations on the same call give the same result. *)
Ltac same_scrutinee :=
  repeat match goal with
         | H1 : ?x = _, H2 : ?x = _ |- _ => rewrite H1 in H2; simplify_eq/=
         end.



(** ** [send_message], block by block *)

Lemma for_each_read (acc : list value) (filenames : list string)
    (st : State) :
  for_each
    (fun acc filename =>
       bytes ← read_binary env filename;
       let base64_attachment := bytes_to_base64 bytes in
       mret (acc ++ [VStr base64_attachment]))
    acc filenames st
  = match read_files env filenames with
    | inl e => (Raise (Builtin e), st)
    | inr files => (Return (acc ++ map encoded files), st)
    end.
Proof.
  revert acc. induction filenames as [|filename rest IH]; intros acc; simpl.
  - by rewrite app_nil_r.
  - rewrite !bind_run. unfold read_binary at 1.
    destruct (open_read env filename) as [e|bytes]; simpl; [done|].
    rewrite IH. destruct (read_files env rest) as [e|files]; [done|].
    by rewrite <- app_assoc.
Qed.

Lemma encode_attachments_run (has_v2 : bool) (data : gmap string value)
    (filenames : option (list string))
    (attachments_as_bytes : option (list (list byte))) (st : State) :
  encode_attachments env has_v2 data filenames attachments_as_bytes st
  = match payload env has_v2 data filenames attachments_as_bytes with
    | inl e => (Raise (Builtin e), st)
    | inr data' => (Return data', st)
    end.
Proof.
  unfold encode_attachments, payload. destruct has_v2.
  - rewrite bind_run. destruct filenames as [l|]; simpl.
    + rewrite for_each_read.
      destruct (read_files env l) as [e|files]; [done|].
      by destruct attachments_as_bytes.
    + rewrite app_nil_r. by destruct attachments_as_bytes.
  - destruct filenames as [[|filename [|? ?]]|]; try done.
    rewrite bind_run. unfold read_binary.
    by destruct (open_read env filename).
Qed.

Lemma post_and_check_sent (url : string) (data : gmap string value)
    (st : State) :
  (post_and_check env url data st).2
  = log st {| rq_method := POST; rq_url := url;
              rq_json := Some (VDict data);
              rq_auth := _auth (self st);
              rq_verify := _verify_ssl (self st) |}.
Proof.
  unfold post_and_check, log. unfold_monad.
  repeat inner_destruct; done.
Qed.

Lemma try_reraise_sent {A : Type} (m : M A) (message : string) (st : State) :
  (try_except m (reraise message) st).2 = (m st).2.
Proof.
  unfold try_except, reraise.
  destruct (m st) as [[a|exc] st']; [done|].
  by destruct exc.
Qed.

(** [send_message] once [api_info] has returned and "v2" has been looked
    for among the versions. *)
Lemma send_message_from_info (message recipients : value)
    (filenames : option (list string))
    (attachments_as_bytes : option (list (list byte)))
    (st st1 : State) (info api_versions build_nr : value) (has_v2 : bool) :
  api_info env st = (Return info, st1) ->
  unpack2 info = inr (api_versions, build_nr) ->
  contains "v2" api_versions = inr has_v2 ->
  send_message env message recipients filenames attachments_as_bytes st
  = if several filenames && negb has_v2 then (Raise capability_error, st1)
    else
      try_except
        (data ← encode_attachments env has_v2
                  (base_payload (self st1) message recipients)
                  filenames attachments_as_bytes;
         post_and_check env (_base_url (self st1) +:+ send_path has_v2) data)
        (reraise "Couldn't send signal message") st1.
Proof.
  intros Hinfo Hunpack Hv2. unfold send_message.
  rewrite bind_run, Hinfo, bind_run, Hunpack. simpl.
  rewrite bind_run.
  destruct (several filenames), has_v2; simpl;
    rewrite ?bind_run, ?Hv2; simpl; try done.
  all: unfold try_except; rewrite !bind_run, Hv2; simpl; done.
Qed.


(** [send_message] when the server advertises "v2" or does not: the
    capability error, or the two blocks run after the info request. *)
Lemma send_message_advertised (message recipients : value)
    (filenames : option (list string))
    (attachments_as_bytes : option (list (list byte)))
    (st : State) (has_v2 : bool) :
  advertises env st has_v2 ->
  send_message env message recipients filenames attachments_as_bytes st
  = if several filenames && negb has_v2 then
      (Raise capability_error, log st (about (self st)))
    else
      try_except
        (data ← encode_attachments env has_v2
                  (base_payload (self st) message recipients)
                  filenames attachments_as_bytes;
         post_and_check env (_base_url (self st) +:+ send_path has_v2) data)
        (reraise "Couldn't send signal message")
        (log st (about (self st))).
Proof.
  intros (info & api_versions & build_nr & Hinfo & Hunpack & Hv2).
  rewrite (send_message_from_info message recipients filenames
             attachments_as_bytes st (log st (about (self st)))
             info api_versions build_nr has_v2); [done| |done|done].
  rewrite <- api_info_sent, <- Hinfo. by destruct (api_info env st).
Qed.

(** The requests [send_message] has issued when it is over. *)
Lemma send_message_sent (message recipients : value)
    (filenames : option (list string))
    (attachments_as_bytes : option (list (list byte)))
    (st : State) (has_v2 : bool) :
  advertises env st has_v2 ->
  sent (send_message env message recipients filenames
          attachments_as_bytes st).2
  = sent st ++ about (self st) ::
      if several filenames && negb has_v2 then []
      else
        match payload env has_v2 (base_payload (self st) message recipients)
                filenames attachments_as_bytes with
        | inl _ => []
        | inr data =>
            [request_of (self st) POST (send_path has_v2)
               (Some (VDict data))]
        end.
Proof.
  intros Hadv. rewrite (send_message_advertised _ _ _ _ _ _ Hadv).
  destruct (several filenames && negb has_v2); [done|].
  rewrite try_reraise_sent, bind_run, encode_attachments_run.
  destruct (payload env has_v2 _ _ _) as [e|data]; [done|].
  rewrite post_and_check_sent. simpl. by rewrite <- app_assoc.
Qed.

Lemma base_payload_no_attachment (c : SignalCliRestApi)
    (message recipients : value) :
  base_payload c message recipients !! "base64_attachment" = None
  /\ base_payload c message recipients !! "base64_attachments" = None.
Proof. unfold base_payload. by rewrite !lookup_insert_ne, !lookup_empty. Qed.

Lemma read_files_single (filename : string) (files : list (list byte)) :
  read_files env [filename] = inr files ->
  exists bytes, open_read env filename = inr bytes.
Proof. simpl. destruct (open_read env filename); [done|eauto]. Qed.

(** C2, as the code has it.  When several files are to be sent and the
    server does not advertise "v2", [send_message] raises the capability
    error once [api_info] has issued its request to the info endpoint, which
    is the one request of the call: nothing is posted. *)
Theorem capability_error_after_info_request (message recipients : value)
    (filenames : option (list string))
    (attachments_as_bytes : option (list (list byte))) (st : State) :
  advertises env st false ->
  several filenames = true ->
  send_message env message recipients filenames attachments_as_bytes st
  = (Raise capability_error, log st (about (self st)))
  /\ sent (log st (about (self st))) = sent st ++ [about (self st)]
  /\ rq_method (about (self st)) = GET.
Proof.
  intros Hadv Hseveral. split; [|done].
  rewrite (send_message_advertised _ _ _ _ _ _ Hadv), Hseveral. done.
Qed.

(** C3.  Against a server that advertises "v2", when the files can be read,
    [send_message] posts to the v2 endpoint a payload whose field
    "base64_attachments" is one list: the base64 encoding of every
    attachment given as bytes, in order, followed by that of every file, in
    order. *)
Theorem v2_attachments_in_one_list (message recipients : value)
    (filenames : option (list string))
    (attachments_as_bytes : option (list (list byte))) (st : State)
    (files : list (list byte)) :
  advertises env st true ->
  read_files env (default [] filenames) = inr files ->
  exists data,
    sent (send_message env message recipients filenames
            attachments_as_bytes st).2
    = sent st ++ [about (self st);
                  request_of (self st) POST "/v2/send" (Some (VDict data))]
    /\ data !! "base64_attachments"
       = Some (VList (map encoded (default [] attachments_as_bytes)
                      ++ map encoded files))
    /\ data !! "base64_attachment" = None.
Proof.
  intros Hadv Hfiles. rewrite (send_message_sent _ _ _ _ _ _ Hadv).
  rewrite andb_false_r. unfold payload. rewrite Hfiles.
  eexists. split; [reflexivity|]. split.
  - apply lookup_insert_eq.
  - rewrite lookup_insert_ne by done. apply base_payload_no_attachment.
Qed.

(** C4.  Against a server that does not advertise "v2": one file, when it
    can be read, goes base64-encoded into the field "base64_attachment" of
    the payload posted to the v1 endpoint; with no file the payload has no
    attachment field; and the attachments given as bytes change nothing,
    the call runs as if none had been given. *)
Theorem legacy_attachments (message recipients : value)
    (filenames : option (list string))
    (attachments_as_bytes : option (list (list byte))) (st : State) :
  advertises env st false ->
  (forall filename bytes,
     filenames = Some [filename] ->
     open_read env filename = inr bytes ->
     sent (send_message env message recipients filenames
             attachments_as_bytes st).2
     = sent st ++ [about (self st);
                   request_of (self st) POST "/v1/send"
                     (Some (VDict (<["base64_attachment" := encoded bytes]>
                                     (base_payload (self st) message
                                        recipients))))])
  /\ (filenames = None \/ filenames = Some [] ->
      sent (send_message env message recipients filenames
              attachments_as_bytes st).2
      = sent st ++ [about (self st);
                    request_of (self st) POST "/v1/send"
                      (Some (VDict (base_payload (self st) message
                                      recipients)))]
      /\ base_payload (self st) message recipients !! "base64_attachment"
         = None
      /\ base_payload (self st) message recipients !! "base64_attachments"
         = None)
  /\ send_message env message recipients filenames attachments_as_bytes st
     = send_message env message recipients filenames None st.
Proof.
  intros Hadv. split; [|split].
  - intros filename bytes -> Hread.
    rewrite (send_message_sent _ _ _ _ _ _ Hadv). simpl. by rewrite Hread.
  - intros Hnone. split; [|apply base_payload_no_attachment].
    rewrite (send_message_sent _ _ _ _ _ _ Hadv).
    by destruct Hnone as [-> | ->].
  - rewrite !(send_message_advertised _ _ _ _ _ _ Hadv).
    destruct (several filenames && negb false); [done|].
    unfold try_except. by rewrite !bind_run, !encode_attachments_run.
Qed.

(** C7.  Whatever [send_message] sends after the info request goes by POST
    to the v2 send endpoint when the server advertises "v2" and to the v1
    send endpoint when it does not; and it does send, unless the capability
    check or the reading of a file stops it. *)
Theorem send_endpoint (message recipients : value)
    (filenames : option (list string))
    (attachments_as_bytes : option (list (list byte))) (st : State)
    (has_v2 : bool) :
  advertises env st has_v2 ->
  exists posted,
    sent (send_message env message recipients filenames
            attachments_as_bytes st).2
    = sent st ++ about (self st) :: posted
    /\ Forall (fun rq =>
                 rq_method rq = POST
                 /\ rq_url rq = _base_url (self st) +:+
                                (if has_v2 then "/v2/send" else "/v1/send"))
         posted
    /\ (several filenames && negb has_v2 = false ->
        (exists files, read_files env (default [] filenames) = inr files) ->
        length posted = 1).
Proof.
  intros Hadv. rewrite (send_message_sent _ _ _ _ _ _ Hadv).
  eexists. split; [reflexivity|].
  destruct (several filenames && negb has_v2) eqn:Hcap.
  { split; [constructor|done]. }
  destruct (payload env has_v2 _ _ _) as [e|data] eqn:Hpayload.
  - split; [constructor|]. intros _ [files Hfiles]. exfalso.
    unfold payload in Hpayload. destruct has_v2.
    + by rewrite Hfiles in Hpayload.
    + destruct filenames as [[|filename [|? ?]]|]; try done.
      apply read_files_single in Hfiles as [bytes Hbytes].
      by rewrite Hbytes in Hpayload.
  - split; [|done]. constructor; [|constructor].
    by destruct has_v2.
Qed.

(** C10.  With "v2" the posted payload always has the key
    "base64_attachments", bound to the empty list when there is no
    attachment of either kind; without "v2" and without a file a payload is
    posted that has no key "base64_attachment"; and without "v2" no payload
    that is posted has that key unless exactly one file is given. *)
Theorem attachment_keys (message recipients : value)
    (filenames : option (list string))
    (attachments_as_bytes : option (list (list byte))) (st : State) :
  (advertises env st true ->
   forall files,
     read_files env (default [] filenames) = inr files ->
     exists data attachments,
       sent (send_message env message recipients filenames
               attachments_as_bytes st).2
       = sent st ++ [about (self st);
                     request_of (self st) POST "/v2/send"
                       (Some (VDict data))]
       /\ data !! "base64_attachments" = Some (VList attachments)
       /\ (default [] attachments_as_bytes = [] ->
           default [] filenames = [] -> attachments = []))
  /\ (advertises env st false ->
      filenames = None \/ filenames = Some [] ->
      exists data,
        sent (send_message env message recipients filenames
                attachments_as_bytes st).2
        = sent st ++ [about (self st);
                      request_of (self st) POST "/v1/send"
                        (Some (VDict data))]
        /\ data !! "base64_attachment" = None)
  /\ (advertises env st false ->
      (forall filename, filenames <> Some [filename]) ->
      exists posted,
        sent (send_message env message recipients filenames
                attachments_as_bytes st).2
        = sent st ++ about (self st) :: posted
        /\ Forall (fun rq =>
                     exists data,
                       rq_json rq = Some (VDict data)
                       /\ data !! "base64_attachment" = None)
             posted).
Proof.
  split; [|split].
  - intros Hadv files Hfiles. rewrite (send_message_sent _ _ _ _ _ _ Hadv).
    rewrite andb_false_r. unfold payload. rewrite Hfiles.
    eexists _, _. split; [reflexivity|]. split; [apply lookup_insert_eq|].
    intros Hbytes Hnames. rewrite Hbytes, Hnames in *. simpl in Hfiles.
    by simplify_eq.
  - intros Hadv Hnone. rewrite (send_message_sent _ _ _ _ _ _ Hadv).
    eexists. split; [by destruct Hnone as [-> | ->]|].
    apply base_payload_no_attachment.
  - intros Hadv Hnot. rewrite (send_message_sent _ _ _ _ _ _ Hadv).
    eexists. split; [reflexivity|].
    destruct (several filenames && negb false); [constructor|].
    unfold payload.
    destruct filenames as [[|filename [|? ?]]|]; try by destruct (Hnot filename).
    all: constructor; [|constructor]; eexists; split; [reflexivity|];
      apply base_payload_no_attachment.
Qed.

(** A method without [return], seen as a call. *)
Lemma call_unit_run (m : M unit) (st : State) :
  (m ≫= fun _ => mret VNone) st
  = (match (m st).1 with
     | Return _ => Return VNone
     | Raise exc => Raise exc
     end, (m st).2).
Proof. rewrite bind_run. by destruct (m st) as [[[]|exc] st']. Qed.






(** ** Which errors leave the methods *)

Lemma uniform_try_reraise {A : Type} (m : M A) (message : string) :
  uniform (try_except m (reraise message)).
Proof.
  intros st exc. unfold try_except, reraise.
  destruct (m st) as [[a|exc'] st']; [done|].
  destruct exc'; simpl; by intros [= <-].
Qed.

Lemma uniform_api_info : uniform (api_info env).
Proof.
  intros st exc. rewrite api_info_run. simpl.
  repeat case_match; by intros [= <-].
Qed.

Lemma uniform_unit (m : M unit) :
  uniform m -> uniform (m ≫= fun _ => mret VNone).
Proof.
  intros Hm st exc. rewrite call_unit_run. simpl.
  specialize (Hm st exc). destruct (m st).1; [done|].
  intros [= <-]. by apply Hm.
Qed.

(** Every method but [mode] and [send_message] raises nothing but
    [SignalCliRestApiError]. *)
Lemma uniform_call (op : operation) :
  match op with
  | Mode | SendMessage _ _ _ _ => False
  | _ => True
  end ->
  uniform (call env op).
Proof.
  destruct op; try done; intros _; simpl;
    try apply uniform_unit; try apply uniform_api_info;
    apply uniform_try_reraise.
Qed.

(** [send_message] raises [SignalCliRestApiError], or the exception of the
    test ["v2" in api_versions] on versions that are no container. *)
Lemma send_message_raises (message recipients : value)
    (filenames : option (list string))
    (attachments_as_bytes : option (list (list byte)))
    (st : State) (exc : exception) :
  (send_message env message recipients filenames attachments_as_bytes st).1
  = Raise exc ->
  is_SignalCliRestApiError exc = true
  \/ exists info api_versions build_nr e,
       (api_info env st).1 = Return info
       /\ unpack2 info = inr (api_versions, build_nr)
       /\ contains "v2" api_versions = inl e
       /\ exc = Builtin e.
Proof.
  destruct (api_info env st) as [[info|exc'] st1] eqn:Hinfo.
  2: { unfold send_message. rewrite bind_run, Hinfo. simpl.
       intros [= <-]. left. apply (uniform_api_info st). by rewrite Hinfo. }
  destruct (api_info_unpacks st info) as (api_versions & build_nr & Hunpack);
    [by rewrite Hinfo|].
  destruct (contains "v2" api_versions) as [e|has_v2] eqn:Hv2.
  { intros Hraise. right. exists info, api_versions, build_nr, e.
    repeat split; try done.
    unfold send_message in Hraise.
    rewrite bind_run, Hinfo, bind_run, Hunpack in Hraise. simpl in Hraise.
    rewrite bind_run in Hraise.
    destruct (several filenames); simpl in Hraise;
      rewrite ?bind_run, ?Hv2 in Hraise; simpl in Hraise;
      rewrite ?bind_run, ?Hv2 in Hraise; simpl in Hraise; congruence. }
  assert (Hadv : advertises env st has_v2).
  { exists info, api_versions, build_nr. by rewrite Hinfo. }
  rewrite (send_message_advertised _ _ _ _ _ _ Hadv).
  destruct (several filenames && negb has_v2).
  - intros [= <-]. by left.
  - intros Hraise. left. by eapply uniform_try_reraise.
Qed.

(** C9.  Whatever methods are called on a client, and whatever they return
    or raise, the client has afterwards the base address, the sender id, the
    credentials and the verify-TLS flag it was constructed with. *)
Theorem configuration_unchanged {A : Type} `{SignalCliRestApiAuth A}
    (base_url number : string) (auth : option A) (verify_ssl : bool)
    (ops : list operation) (history : list Request) :
  let st := {| self := __init__ base_url number auth verify_ssl;
               sent := history |} in
  _base_url (self (calls env ops st)) = base_url
  /\ _number (self (calls env ops st)) = number
  /\ _auth (self (calls env ops st)) = get_auth <$> auth
  /\ _verify_ssl (self (calls env ops st)) = verify_ssl
  /\ forall op, self (call env op (calls env ops st)).2
                = self (calls env ops st).
Proof.
  intros st. pose proof (keeps_self_calls ops st) as Hself.
  repeat split; try (by rewrite Hself).
  intros op. apply keeps_self_call.
Qed.

(** ** The answer to the last request decides *)

(** Rewriting with the equations at hand, as far as they go. *)
Ltac run_with_equations :=
  repeat (match goal with
          | H : ?x = _ |- context [?x] => rewrite H
          end; cbn).

(** The cases of the tests on the status of a response. *)
Ltac status_cases :=
  repeat match goal with
         | H : context [(status_code _ =? _)%Z] |- _ => revert H
         end;
  repeat match goal with
         | |- context [(status_code ?r =? ?n)%Z] =>
             destruct (status_code r =? n)%Z
         end;
  intros; simplify_eq/=.

(** The methods with one request and no local file, as a function of the
    answer to that request. *)
Lemma single_request_after (op : operation) (st : State)
    (pre : list Request) (rq : Request) :
  match op with
  | CreateGroup _ _ | ListGroups | Receive | ListAttachments
  | GetAttachment _ | DeleteAttachment _ => True
  | _ => False
  end ->
  sent (call env op st).2 = sent st ++ pre ++ [rq] ->
  (call env op st).1 = after env op (server env (sent st ++ pre) rq).
Proof.
  intros Hop Hsent.
  destruct op; try done; clear Hop;
    unfold call, create_group, list_groups, receive, list_attachments,
      get_attachment, delete_attachment in *;
    unfold_monad.
  all: repeat inner_destruct.
  all: apply last_request_inv in Hsent as [-> ->];
    rewrite app_nil_r in *; same_scrutinee.
  all: unfold after, rejection, wrapped; run_with_equations; try done.
  all: status_cases; run_with_equations; try done.
Qed.

Lemma update_profile_after (name : value) (filename : option string)
    (st : State) (pre : list Request) (rq : Request) :
  sent (update_profile env name filename st).2 = sent st ++ pre ++ [rq] ->
  (call env (UpdateProfile name filename) st).1
  = after env (UpdateProfile name filename)
      (server env (sent st ++ pre) rq).
Proof.
  intros Hsent. simpl. rewrite call_unit_run. simpl.
  unfold update_profile in *.
  destruct filename as [filename|]; unfold_monad.
  all: repeat inner_destruct.
  all: try (by apply no_request_inv in Hsent).
  all: apply last_request_inv in Hsent as [-> ->];
    rewrite app_nil_r in *; same_scrutinee.
  all: unfold after, rejection, wrapped; run_with_equations; try done.
  all: status_cases; run_with_equations; try done.
Qed.

(** [send_message] once it has posted: the info request came first, and the
    call ends as the request and the check of its response end. *)
Lemma send_message_posted (message recipients : value)
    (filenames : option (list string))
    (attachments_as_bytes : option (list (list byte)))
    (st : State) (pre : list Request) (rq : Request) :
  sent (send_message env message recipients filenames
          attachments_as_bytes st).2 = sent st ++ pre ++ [rq] ->
  rq_method rq = POST ->
  exists has_v2 data,
    pre = [about (self st)]
    /\ rq = request_of (self st) POST (send_path has_v2) (Some (VDict data))
    /\ advertises env st has_v2
    /\ several filenames && negb has_v2 = false
    /\ payload env has_v2 (base_payload (self st) message recipients)
         filenames attachments_as_bytes = inr data
    /\ send_message env message recipients filenames attachments_as_bytes st
       = try_except
           (post_and_check env (_base_url (self st) +:+ send_path has_v2)
              data)
           (reraise "Couldn't send signal message")
           (log st (about (self st))).
Proof.
  intros Hsent Hmethod.
  assert (Hget : forall l, sent st ++ [about (self st)] = sent st ++ l ++ [rq]
                           -> False).
  { intros l [_ ->]%last_request_inv. done. }
  destruct (api_info env st) as [[info|exc] st1] eqn:Hinfo;
    pose proof (api_info_sent st) as Hst1; rewrite Hinfo in Hst1;
    simpl in Hst1; subst st1.
  2: { unfold send_message in Hsent. rewrite bind_run, Hinfo in Hsent.
       by apply Hget in Hsent. }
  destruct (unpack2 info) as [e|[api_versions build_nr]] eqn:Hunpack.
  { unfold send_message in Hsent.
    rewrite bind_run, Hinfo, bind_run, Hunpack in Hsent.
    by apply Hget in Hsent. }
  destruct (contains "v2" api_versions) as [e|has_v2] eqn:Hv2.
  { unfold send_message in Hsent.
    rewrite bind_run, Hinfo, bind_run, Hunpack in Hsent. simpl in Hsent.
    rewrite bind_run in Hsent.
    destruct (several filenames); simpl in Hsent;
      rewrite ?bind_run, ?Hv2 in Hsent; simpl in Hsent;
      rewrite ?bind_run, ?Hv2 in Hsent; by apply Hget in Hsent. }
  assert (Hadv : advertises env st has_v2).
  { exists info, api_versions, build_nr. by rewrite Hinfo. }
  rewrite (send_message_sent _ _ _ _ _ _ Hadv) in Hsent.
  rewrite (send_message_advertised _ _ _ _ _ _ Hadv).
  destruct (several filenames && negb has_v2) eqn:Hcap;
    [by apply Hget in Hsent|].
  destruct (payload env has_v2 _ _ _) as [e|data] eqn:Hpayload;
    [by apply Hget in Hsent|].
  replace (sent st ++ [about (self st); request_of (self st) POST
                         (send_path has_v2) (Some (VDict data))])
    with ((sent st ++ [about (self st)]) ++
          [request_of (self st) POST (send_path has_v2) (Some (VDict data))])
    in Hsent by by rewrite <- app_assoc.
  replace (sent st ++ pre ++ [rq]) with ((sent st ++ pre) ++ [rq]) in Hsent
    by by rewrite <- app_assoc.
  apply app_inj_tail in Hsent as [Hpre <-].
  apply app_inv_head in Hpre as <-.
  exists has_v2, data. repeat split; try done.
  unfold try_except.
  by rewrite bind_run, encode_attachments_run, Hpayload.
Qed.

(** The request of [send_message] to the send endpoint, with the check of
    its response, as a function of the answer. *)
Lemma post_and_check_after (message recipients : value)
    (filenames : option (list string))
    (attachments_as_bytes : option (list (list byte)))
    (url : string) (data : gmap string value) (st : State) :
  (try_except (post_and_check env url data)
     (reraise "Couldn't send signal message") st).1
  = match after env
            (SendMessage message recipients filenames attachments_as_bytes)
            (server env (sent st)
               {| rq_method := POST; rq_url := url;
                  rq_json := Some (VDict data);
                  rq_auth := _auth (self st);
                  rq_verify := _verify_ssl (self st) |}) with
    | Return _ => Return ()
    | Raise exc => Raise exc
    end.
Proof.
  unfold post_and_check. unfold_monad.
  repeat inner_destruct.
  all: unfold after, rejection, wrapped; run_with_equations; try done.
  all: status_cases; run_with_equations; try done.
Qed.

Lemma send_message_after (message recipients : value)
    (filenames : option (list string))
    (attachments_as_bytes : option (list (list byte)))
    (st : State) (pre : list Request) (rq : Request) :
  sent (send_message env message recipients filenames
          attachments_as_bytes st).2 = sent st ++ pre ++ [rq] ->
  rq_method rq = POST ->
  (call env (SendMessage message recipients filenames attachments_as_bytes)
     st).1
  = after env (SendMessage message recipients filenames attachments_as_bytes)
      (server env (sent st ++ pre) rq).
Proof.
  intros Hsent Hmethod.
  destruct (send_message_posted _ _ _ _ _ _ _ Hsent Hmethod)
    as (has_v2 & data & -> & -> & _ & _ & _ & Hrun).
  simpl call. rewrite call_unit_run, Hrun.
  rewrite (post_and_check_after message recipients filenames
             attachments_as_bytes).
  simpl. unfold request_of.
  destruct (server env _ _) as [e|resp]; simpl; [done|].
  by destruct (status_code resp =? 201)%Z.
Qed.

(** A method that checks the status of its response returns or raises as
    the answer to the last request it made to its endpoint decides. *)
Lemma call_after (op : operation) (st : State)
    (pre : list Request) (rq : Request) :
  checks_status op = true ->
  sent (call env op st).2 = sent st ++ pre ++ [rq] ->
  rq_method rq = endpoint_method op ->
  (call env op st).1 = after env op (server env (sent st ++ pre) rq).
Proof.
  intros Hchecks Hsent Hmethod.
  destruct op; try done; try by apply single_request_after.
  - apply update_profile_after. simpl in Hsent.
    by rewrite call_unit_run in Hsent.
  - apply send_message_after; [|done]. simpl in Hsent.
    by rewrite call_unit_run in Hsent.
Qed.

(** ** Which requests a call issues *)

Lemma single_request_sent (op : operation) (st : State) (rq : Request) :
  single_request (self st) op = Some rq ->
  sent (call env op st).2 = sent st ++ [rq].
Proof.
  destruct op as [| | | | |name [filename|]| | | |]; intros [= <-]; simpl.
  1: by rewrite api_info_sent.
  all: rewrite ?call_unit_run; simpl.
  all: unfold mode, create_group, list_groups, receive, update_profile,
         list_attachments, get_attachment, delete_attachment, about,
         profile_request, group_payload, request_of.
  all: unfold_monad; repeat inner_destruct; done.
Qed.

Lemma update_profile_sent (name : value) (filename : option string)
    (st : State) :
  sent (update_profile env name filename st).2
  = sent st ++
    match filename with
    | None => [profile_request (self st) name None]
    | Some filename =>
        match open_read env filename with
        | inl _ => []
        | inr bytes => [profile_request (self st) name (Some bytes)]
        end
    end.
Proof.
  unfold update_profile, profile_request, request_of, encoded.
  destruct filename as [filename|]; unfold_monad.
  all: repeat inner_destruct; by rewrite ?app_nil_r.
Qed.

(** [send_message] goes on past the info request only when the server
    advertises "v2" or does not: otherwise it raises there and then. *)
Lemma send_message_early (message recipients : value)
    (filenames : option (list string))
    (attachments_as_bytes : option (list (list byte))) (st : State) :
  (exists has_v2, advertises env st has_v2)
  \/ exists exc,
       send_message env message recipients filenames attachments_as_bytes st
       = (Raise exc, log st (about (self st))).
Proof.
  destruct (api_info env st) as [[info|exc] st1] eqn:Hinfo;
    pose proof (api_info_sent st) as Hst1; rewrite Hinfo in Hst1;
    simpl in Hst1; subst st1.
  2: { right. exists exc. unfold send_message. by rewrite bind_run, Hinfo. }
  destruct (unpack2 info) as [e|[api_versions build_nr]] eqn:Hunpack.
  { right. exists (Builtin e). unfold send_message.
    by rewrite bind_run, Hinfo, bind_run, Hunpack. }
  destruct (contains "v2" api_versions) as [e|has_v2] eqn:Hv2.
  { right. exists (Builtin e). unfold send_message.
    rewrite bind_run, Hinfo, bind_run, Hunpack. simpl.
    rewrite bind_run.
    destruct (several filenames); simpl;
      rewrite ?bind_run, ?Hv2; simpl; rewrite ?bind_run, ?Hv2; done. }
  left. exists has_v2, info, api_versions, build_nr. by rewrite Hinfo.
Qed.

Lemma send_message_sent_any (message recipients : value)
    (filenames : option (list string))
    (attachments_as_bytes : option (list (list byte))) (st : State) :
  exists posted,
    sent (send_message env message recipients filenames
            attachments_as_bytes st).2
    = sent st ++ about (self st) :: posted
    /\ length posted <= 1
    /\ Forall (fun rq =>
                 exists has_v2 data,
                   rq = request_of (self st) POST (send_path has_v2)
                          (Some (VDict data)))
         posted.
Proof.
  destruct (send_message_early message recipients filenames
              attachments_as_bytes st) as [[has_v2 Hadv] | [exc Hrun]].
  - rewrite (send_message_sent _ _ _ _ _ _ Hadv).
    eexists. split; [reflexivity|].
    destruct (several filenames && negb has_v2); [by split; [simpl; lia|]|].
    destruct (payload env has_v2 _ _ _) as [e|data];
      [by split; [simpl; lia|]|].
    split; [simpl; lia|]. constructor; [|constructor]. by exists has_v2, data.
  - exists []. rewrite Hrun. by split; [|split; [simpl; lia|]].
Qed.

(** The requests of a call, whatever the call is: at most two, each made
    with the configuration of the client. *)
Lemma call_sent (op : operation) (st : State) :
  exists issued,
    sent (call env op st).2 = sent st ++ issued
    /\ length issued <= (match op with SendMessage _ _ _ _ => 2 | _ => 1 end)
    /\ Forall (configured (self st)) issued.
Proof.
  assert (Hrq : forall method path json,
             configured (self st) (request_of (self st) method path json)).
  { intros. repeat split. by eexists. }
  destruct (single_request (self st) op) as [rq|] eqn:Hsingle.
  - exists [rq]. split; [by apply single_request_sent|].
    split; [destruct op; simpl; lia|].
    constructor; [|constructor].
    destruct op as [| | | | |name [filename|]| | | |]; simplify_eq/=;
      apply Hrq.
  - destruct op as [| | | | |name [filename|]| | | |]; simplify_eq/=.
    + rewrite call_unit_run. simpl. rewrite update_profile_sent.
      eexists. split; [reflexivity|].
      destruct (open_read env filename); (split; [simpl; lia|]).
      * constructor.
      * constructor; [apply Hrq|constructor].
    + rewrite call_unit_run. simpl.
      destruct (send_message_sent_any message recipients filenames
                  attachments_as_bytes st) as (posted & -> & Hlen & Hposted).
      eexists. split; [reflexivity|]. split; [simpl; lia|].
      constructor; [apply Hrq|].
      eapply Forall_impl; [exact Hposted|].
      intros rq (has_v2 & data & ->). apply Hrq.
Qed.

Lemma configured_calls (ops : list operation) (st : State) :
  Forall (configured (self st)) (sent st) ->
  Forall (configured (self st)) (sent (calls env ops st)).
Proof.
  revert st. induction ops as [|op ops IH]; intros st Hst; simpl; [done|].
  rewrite <- (keeps_self_call op st). apply IH.
  rewrite keeps_self_call.
  destruct (call_sent op st) as (issued & -> & _ & Hissued).
  by apply Forall_app.
Qed.

(** ** More on [api_info] and [mode] *)

(** X1.  When the info endpoint answers with a status other than 404 and
    its body is an object with a field "versions", [api_info] returns the
    pair of that field and of the field "build", with 1 in its place when
    the object has no field "build". *)
Theorem api_info_versions_and_build (st : State) (resp : Response)
    (d : gmap string value) (versions : value) :
  server env (sent st) (about (self st)) = inr resp ->
  status_code resp <> 404%Z ->
  json_loads env (content resp) = inr (VDict d) ->
  d !! "versions" = Some versions ->
  (api_info env st).1
  = Return (VTuple [versions; default (VInt 1) (d !! "build")]).
Proof.
  intros Hresp Hstatus Hdata Hversions. rewrite api_info_run, Hresp. simpl.
  apply Z.eqb_neq in Hstatus. rewrite Hstatus, Hdata. simpl.
  rewrite Hversions. by destruct (d !! "build").
Qed.

(** X2.  Whenever [api_info] raises, it raises the error "Couldn't
    determine REST API version", and the cause of that error is what went
    wrong: the transport failure of the request, the failure to parse the
    body of a response that is no 404, or the failure to find "versions" in
    the parsed body.  Looking for "build" never makes it fail. *)
Theorem api_info_failure_wrapped (st : State) (exc : exception) :
  (api_info env st).1 = Raise exc ->
  exists e,
    exc = wrapped ApiInfo e
    /\ (server env (sent st) (about (self st)) = inl e
        \/ exists resp,
             server env (sent st) (about (self st)) = inr resp
             /\ status_code resp <> 404%Z
             /\ (json_loads env (content resp) = inl e
                 \/ exists data,
                      json_loads env (content resp) = inr data
                      /\ getitem data "versions" = inl e)).
Proof.
  rewrite api_info_run. simpl.
  destruct (server env _ _) as [e|resp]; [intros [= <-]; eauto|].
  destruct (status_code resp =? 404)%Z eqn:Hstatus; [done|].
  apply Z.eqb_neq in Hstatus.
  destruct (json_loads env _) as [e|data] eqn:Hdata;
    [intros [= <-]; exists e; split; [done|]; right; exists resp; eauto|].
  destruct (getitem data "versions") as [e|versions] eqn:Hversions;
    [intros [= <-]; exists e; split; [done|]; right; exists resp;
     repeat split; eauto|].
  destruct data; try done. simpl.
  by destruct (d !! "build").
Qed.

(** X3.  Whenever [mode] raises, what it raises is no
    [SignalCliRestApiError]: it is, as it stands, the transport failure of
    the request, the failure to parse the body, or the failure to index a
    parsed body that is no object. *)
Theorem mode_raises_no_api_error (st : State) (exc : exception) :
  (mode env st).1 = Raise exc ->
  exists e,
    exc = Builtin e
    /\ is_SignalCliRestApiError exc = false
    /\ (server env (sent st) (about (self st)) = inl e
        \/ exists resp,
             server env (sent st) (about (self st)) = inr resp
             /\ (json_loads env (content resp) = inl e
                 \/ exists data,
                      json_loads env (content resp) = inr data
                      /\ getitem data "mode" = inl e
                      /\ forall d, data <> VDict d)).
Proof.
  unfold mode, about, request_of. unfold_monad.
  destruct (server env _ _) as [e|resp]; cbn; [intros [= <-]; eauto|].
  destruct (json_loads env _) as [e|data] eqn:Hdata; cbn;
    [intros [= <-]; exists e; repeat split; right; exists resp; eauto|].
  destruct (getitem data "mode") as [e|m] eqn:Hmode; cbn; [|done].
  destruct e; cbn; try done; intros [= <-]; eexists; repeat split; right;
    exists resp; split; try done; right; exists data; repeat split;
    try done.
  all: intros d ->; simpl in Hmode; by destruct (d !! "mode").
Qed.

(** ** One call, one request *)

(** X4.  Every call but [send_message] and [update_profile] with a file
    issues exactly one request, whatever the server answers: by GET to the
    info endpoint for [api_info] and [mode], by POST with the name and the
    members to the groups of the sender for [create_group], by GET to the
    groups of the sender, to its inbox and to the attachments for the
    listings, by PUT with the name to the profile of the sender, by GET and
    by DELETE to the attachment of the given id; each with the credentials
    and the verify-TLS flag of the client. *)
Theorem single_request_issued (op : operation) (st : State) (rq : Request) :
  single_request (self st) op = Some rq ->
  sent (call env op st).2 = sent st ++ [rq]
  /\ rq_method rq = endpoint_method op
  /\ configured (self st) rq.
Proof.
  intros Hrq. split; [by apply single_request_sent|].
  destruct op as [| | | | |name [filename|]| | | |]; simplify_eq/=.
  all: repeat split; by eexists.
Qed.

(** X5.  No call issues more than two requests, and only [send_message]
    issues more than one; what was issued before the call stays as it was;
    and every request of the call carries the credentials and the
    verify-TLS flag of the client and goes to a URL under its base
    address. *)
Theorem request_count (op : operation) (st : State) :
  exists issued,
    sent (call env op st).2 = sent st ++ issued
    /\ length issued <= (match op with SendMessage _ _ _ _ => 2 | _ => 1 end)
    /\ Forall (configured (self st)) issued.
Proof. apply call_sent. Qed.

(** X6.  In a session of a client just constructed, every request was made
    with the credentials given to the constructor (none if none were
    given), with its verify-TLS flag, and to a URL under its base
    address. *)
Theorem session_requests_configured {A : Type} `{SignalCliRestApiAuth A}
    (base_url number : string) (auth : option A) (verify_ssl : bool)
    (ops : list operation) :
  let st := {| self := __init__ base_url number auth verify_ssl;
               sent := [] |} in
  Forall (fun rq =>
            rq_auth rq = get_auth <$> auth
            /\ rq_verify rq = verify_ssl
            /\ exists path, rq_url rq = base_url +:+ path)
    (sent (calls env ops st)).
Proof.
  intros st. pose proof (configured_calls ops st) as Hcalls.
  eapply Forall_impl; [apply Hcalls; constructor|].
  intros rq (Hauth & Hverify & Hurl). by destruct auth.
Qed.

(** ** What the answer makes of the call *)

(** X7.  When the last request of a call, a request to the endpoint of the
    method, fails in transport, every method but [mode] raises its own
    error, "Couldn't ...", with the transport failure as its cause. *)
Theorem transport_failure_wrapped (op : operation) (st : State)
    (pre : list Request) (rq : Request) (e : builtin_exception) :
  op <> Mode ->
  sent (call env op st).2 = sent st ++ pre ++ [rq] ->
  rq_method rq = endpoint_method op ->
  server env (sent st ++ pre) rq = inl e ->
  (call env op st).1 = Raise (wrapped op e).
Proof.
  intros Hop Hsent Hmethod Hfail.
  destruct (checks_status op) eqn:Hchecks.
  - by rewrite (call_after op st pre rq), Hfail.
  - destruct op; try done. simpl in *.
    rewrite api_info_sent in Hsent.
    apply last_request_inv in Hsent as [-> ->].
    rewrite app_nil_r in Hfail. by rewrite api_info_run, Hfail.
Qed.

(** X8.  When the response to the last request of a call, a request to the
    endpoint of the method, has a status the method does not accept and a
    body that does not parse, the method raises its own error, "Couldn't
    ...", with the failure to parse as its cause. *)
Theorem rejected_unparsable_body (op : operation) (st : State)
    (pre : list Request) (rq : Request) (resp : Response)
    (e : builtin_exception) :
  checks_status op = true ->
  sent (call env op st).2 = sent st ++ pre ++ [rq] ->
  rq_method rq = endpoint_method op ->
  server env (sent st ++ pre) rq = inr resp ->
  accepted op (status_code resp) = false ->
  response_json env resp = inl e ->
  (call env op st).1 = Raise (wrapped op e).
Proof.
  intros Hchecks Hsent Hmethod Hresp Hstatus Hbody.
  rewrite (call_after op st pre rq), Hresp by done. simpl.
  by rewrite Hstatus, Hbody.
Qed.

(** X9.  [update_profile], [send_message] and [delete_attachment] return
    [None] when the response to their last request, a request to the
    endpoint of the method, has the status they accept; the body of that
    response is not looked at. *)
Theorem accepted_without_result (op : operation) (st : State)
    (pre : list Request) (rq : Request) (resp : Response) :
  match op with
  | UpdateProfile _ _ | SendMessage _ _ _ _ | DeleteAttachment _ => True
  | _ => False
  end ->
  sent (call env op st).2 = sent st ++ pre ++ [rq] ->
  rq_method rq = endpoint_method op ->
  server env (sent st ++ pre) rq = inr resp ->
  accepted op (status_code resp) = true ->
  (call env op st).1 = Return VNone.
Proof.
  intros Hop Hsent Hmethod Hresp Hstatus.
  rewrite (call_after op st pre rq), Hresp by by destruct op. simpl.
  rewrite Hstatus. by destruct op.
Qed.

(** X10.  [list_groups], [receive] and [list_attachments], on a response
    with status 200, return its parsed body; when the body does not parse
    they raise their own error, "Couldn't ...", with the failure to parse
    as its cause. *)
Theorem listing_result (op : operation) (st : State) (rq : Request)
    (resp : Response) :
  op = ListGroups \/ op = Receive \/ op = ListAttachments ->
  single_request (self st) op = Some rq ->
  server env (sent st) rq = inr resp ->
  status_code resp = 200%Z ->
  (call env op st).1 = match response_json env resp with
                       | inr body => Return body
                       | inl e => Raise (wrapped op e)
                       end.
Proof.
  intros Hop Hrq Hresp Hstatus.
  rewrite (call_after op st [] rq).
  - rewrite app_nil_r, Hresp. simpl.
    destruct Hop as [-> | [-> | ->]]; simpl; by rewrite Hstatus.
  - by destruct Hop as [-> | [-> | ->]].
  - by apply single_request_sent.
  - destruct Hop as [-> | [-> | ->]]; by simplify_eq/=.
Qed.

(** X11.  [create_group], on a response with status 200 or 201 whose body
    is an object, returns the field "id" of the object; when the object has
    no such field it raises "Couldn't create Signal Messenger group: " with
    the [KeyError] as its cause. *)
Theorem create_group_result (name members : value) (st : State)
    (resp : Response) (d : gmap string value) :
  server env (sent st)
    (request_of (self st) POST ("/v1/groups/" +:+ _number (self st))
       (Some (VDict (group_payload name members)))) = inr resp ->
  status_code resp = 200%Z \/ status_code resp = 201%Z ->
  response_json env resp = inr (VDict d) ->
  (create_group env name members st).1
  = match d !! "id" with
    | Some id => Return id
    | None => Raise (wrapped (CreateGroup name members) (KeyError "id"))
    end.
Proof.
  intros Hresp Hstatus Hbody.
  change (create_group env name members st)
    with (call env (CreateGroup name members) st).
  erewrite (call_after _ st []); [| done | by apply single_request_sent
                                  | done].
  rewrite app_nil_r. simpl. rewrite Hresp. simpl.
  replace ((status_code resp =? 201)%Z || (status_code resp =? 200)%Z)
    with true by by destruct Hstatus as [-> | ->].
  rewrite Hbody. simpl. by destruct (d !! "id").
Qed.

(** X12.  [get_attachment], on a response with status 200, returns the raw
    content of the response, which it does not parse. *)
Theorem get_attachment_returns_content (attachment_id : string) (st : State)
    (resp : Response) :
  server env (sent st)
    (request_of (self st) GET ("/v1/attachments/" +:+ attachment_id) None)
  = inr resp ->
  status_code resp = 200%Z ->
  (get_attachment env attachment_id st).1 = Return (VBytes (content resp)).
Proof.
  intros Hresp Hstatus.
  change (get_attachment env attachment_id st)
    with (call env (GetAttachment attachment_id) st).
  erewrite (call_after _ st []); [| done | by apply single_request_sent
                                  | done].
  rewrite app_nil_r. simpl. rewrite Hresp. simpl. by rewrite Hstatus.
Qed.

(** ** More on [update_profile] *)

(** X13.  [update_profile] puts to the profile of the sender a payload with
    the name and, when a file is given and can be read, with the base64
    encoding of the file as "base64_avatar"; without a file the payload has
    the name only.  That is its one request. *)
Theorem update_profile_request (name : value) (filename : option string)
    (avatar : option (list byte)) (st : State) :
  avatar_read env filename avatar ->
  sent (update_profile env name filename st).2
  = sent st ++ [profile_request (self st) name avatar].
Proof.
  intros Hread. rewrite update_profile_sent.
  destruct filename as [filename|], avatar as [bytes|]; try done.
  simpl in Hread. by rewrite Hread.
Qed.

(** X14.  When the file of the avatar cannot be read, [update_profile]
    raises "Couldn't update profile: " with the failure as its cause, and
    issues no request. *)
Theorem update_profile_unreadable_avatar (name : value) (filename : string)
    (st : State) (e : builtin_exception) :
  open_read env filename = inl e ->
  update_profile env name (Some filename) st
  = (Raise (wrapped (UpdateProfile name (Some filename)) e), st).
Proof.
  intros Hread. unfold update_profile. unfold_monad. by rewrite Hread.
Qed.

(** ** More on [send_message] *)

(** X15.  [send_message] asks the info endpoint first, on every call and
    before anything else; after that it posts at most once, to one of the
    two send endpoints. *)
Theorem send_message_asks_first (message recipients : value)
    (filenames : option (list string))
    (attachments_as_bytes : option (list (list byte))) (st : State) :
  exists posted,
    sent (send_message env message recipients filenames
            attachments_as_bytes st).2
    = sent st ++ about (self st) :: posted
    /\ length posted <= 1
    /\ Forall (fun rq =>
                 rq_method rq = POST
                 /\ (rq_url rq = _base_url (self st) +:+ "/v2/send"
                     \/ rq_url rq = _base_url (self st) +:+ "/v1/send"))
         posted.
Proof.
  destruct (send_message_sent_any message recipients filenames
              attachments_as_bytes st) as (posted & Hsent & Hlen & Hposted).
  exists posted. repeat split; try done.
  eapply Forall_impl; [exact Hposted|].
  intros rq (has_v2 & data & ->). split; [done|].
  destruct has_v2; [by left | by right].
Qed.

(** X16.  When [api_info] raises, [send_message] raises the same error,
    unchanged, and issues nothing after the info request. *)
Theorem send_message_info_failure (message recipients : value)
    (filenames : option (list string))
    (attachments_as_bytes : option (list (list byte))) (st : State)
    (exc : exception) :
  (api_info env st).1 = Raise exc ->
  send_message env message recipients filenames attachments_as_bytes st
  = (Raise exc, log st (about (self st))).
Proof.
  intros Hinfo. unfold send_message. rewrite bind_run.
  rewrite <- api_info_sent.
  destruct (api_info env st) as [[info|exc'] st1]; by simplify_eq/=.
Qed.

(** X17.  When a file to attach cannot be read, [send_message] raises
    "Couldn't send signal message" with the failure as its cause, the first
    failure if there are several, and posts nothing: with "v2" for any of
    the files, without "v2" for the one file. *)
Theorem send_message_unreadable_file (message recipients : value)
    (filenames : option (list string))
    (attachments_as_bytes : option (list (list byte))) (st : State)
    (has_v2 : bool) (e : builtin_exception) :
  advertises env st has_v2 ->
  (if has_v2 then read_files env (default [] filenames) = inl e
   else exists filename,
          filenames = Some [filename] /\ open_read env filename = inl e) ->
  send_message env message recipients filenames attachments_as_bytes st
  = (Raise (wrapped (SendMessage message recipients filenames
                       attachments_as_bytes) e),
     log st (about (self st))).
Proof.
  intros Hadv Hread. rewrite (send_message_advertised _ _ _ _ _ _ Hadv).
  destruct has_v2.
  - rewrite andb_false_r. unfold try_except.
    rewrite bind_run, encode_attachments_run. unfold payload.
    by rewrite Hread.
  - destruct Hread as (filename & -> & Hread).
    replace (several (Some [filename]) && negb false) with false by done.
    unfold try_except. rewrite bind_run, encode_attachments_run.
    unfold payload. by rewrite Hread.
Qed.

(** X18.  What [send_message] raises is a [SignalCliRestApiError] or a
    [TypeError]; the [TypeError] is that of the test ["v2" in api_versions]
    on versions that are no container.  No transport failure, no failure to
    parse and no failure to read a file leaves [send_message] as it is. *)
Theorem send_message_error_classes (message recipients : value)
    (filenames : option (list string))
    (attachments_as_bytes : option (list (list byte)))
    (st : State) (exc : exception) :
  (send_message env message recipients filenames attachments_as_bytes st).1
  = Raise exc ->
  is_SignalCliRestApiError exc = true
  \/ exists detail, exc = Builtin (TypeError detail).
Proof.
  intros Hraise.
  destruct (send_message_raises _ _ _ _ _ _ Hraise)
    as [Hapi | (info & api_versions & build_nr & e & _ & _ & Hv2 & ->)];
    [by left|].
  right. destruct api_versions; simplify_eq/=; eauto.
Qed.

(** ** The errors of the other methods *)

(** X19.  Every method but [mode] and [send_message] raises nothing but
    [SignalCliRestApiError]. *)
Theorem only_api_errors (op : operation) (st : State) (exc : exception) :
  op <> Mode ->
  (forall message recipients filenames attachments_as_bytes,
     op <> SendMessage message recipients filenames attachments_as_bytes) ->
  (call env op st).1 = Raise exc ->
  exists msg cause, exc = SignalCliRestApiError msg cause.
Proof.
  intros Hmode Hsend Hraise.
  assert (Huniform : uniform (call env op)).
  { apply uniform_call. destruct op; try done. by eapply Hsend. }
  apply Huniform in Hraise. destruct exc; [done|eauto].
Qed.

(** X20.  When the response to the last request of a call, a request to the
    endpoint of the method, has a status the method does not accept and a
    body that parses to something other than an object, the error raised
    carries no message of the server: it is the generic error of the
    method, or its error "Couldn't ..." with a [TypeError] as cause. *)
Theorem rejected_body_not_an_object (op : operation) (st : State)
    (pre : list Request) (rq : Request) (resp : Response) (body : value) :
  checks_status op = true ->
  sent (call env op st).2 = sent st ++ pre ++ [rq] ->
  rq_method rq = endpoint_method op ->
  server env (sent st ++ pre) rq = inr resp ->
  accepted op (status_code resp) = false ->
  response_json env resp = inr body ->
  (forall d, body <> VDict d) ->
  (call env op st).1
  = Raise (SignalCliRestApiError (VStr (generic_message op)) None)
  \/ exists detail, (call env op st).1 = Raise (wrapped op (TypeError detail)).
Proof.
  intros Hchecks Hsent Hmethod Hresp Hstatus Hbody Hobject.
  rewrite (call_after op st pre rq), Hresp by done. simpl.
  rewrite Hstatus, Hbody. unfold rejection.
  destruct body; simpl; eauto.
  - destruct (str_contains "error" s); eauto.
  - destruct (existsb (eq_str "error") l); eauto.
  - destruct (existsb (eq_str "error") l); eauto.
  - by destruct (Hobject d).
Qed.

(** X21.  A server that answers the info request with 404 is taken for one
    without "v2": several files raise the capability error, and a message
    without files is posted to the v1 send endpoint, with no attachment
    field. *)
Theorem not_found_means_legacy (message recipients : value)
    (filenames : option (list string))
    (attachments_as_bytes : option (list (list byte))) (st : State)
    (resp : Response) :
  server env (sent st) (about (self st)) = inr resp ->
  status_code resp = 404%Z ->
  advertises env st false
  /\ (several filenames = true ->
      send_message env message recipients filenames attachments_as_bytes st
      = (Raise capability_error, log st (about (self st))))
  /\ (filenames = None ->
      sent (send_message env message recipients filenames
              attachments_as_bytes st).2
      = sent st ++ [about (self st);
                    request_of (self st) POST "/v1/send"
                      (Some (VDict (base_payload (self st) message
                                      recipients)))]).
Proof.
  intros Hresp Hstatus.
  assert (Hadv : advertises env st false).
  { exists (VList [VStr "v1"; VInt 1]), (VStr "v1"), (VInt 1).
    by rewrite api_info_run, Hresp, Hstatus. }
  split; [done|]. split.
  - intros Hseveral.
    by rewrite (send_message_advertised _ _ _ _ _ _ Hadv), Hseveral.
  - intros ->. by rewrite (send_message_sent _ _ _ _ _ _ Hadv).
Qed.

End Properties.

(** * Sample runs *)

(** ** [bytes_to_base64] on the test vectors of RFC 4648 *)

Example base64_f : bytes_to_base64 [x66] = "Zg==".
Proof. reflexivity. Qed.

Example base64_fo : bytes_to_base64 [x66; x6f] = "Zm8=".
Proof. reflexivity. Qed.

Example base64_foo : bytes_to_base64 [x66; x6f; x6f] = "Zm9v".
Proof. reflexivity. Qed.

Example base64_foobar :
  bytes_to_base64 [x66; x6f; x6f; x62; x61; x72] = "Zm9vYmFy".
Proof. reflexivity. Qed.

Example base64_high_bytes : bytes_to_base64 [xfb; xff; xfe] = "+//+".
Proof. reflexivity. Qed.

(** ** What the servers advertise *)

Lemma legacy_server_advertises : advertises legacy_server fresh false.
Proof.
  exists (VTuple [VList [VStr "v1"]; VInt 1]), (VList [VStr "v1"]), (VInt 1).
  repeat split; vm_compute; reflexivity.
Defined.

Lemma v2_server_advertises : advertises v2_server fresh true.
Proof.
  exists (VTuple [VList [VStr "v1"; VStr "v2"]; VInt 2]),
    (VList [VStr "v1"; VStr "v2"]), (VInt 2).
  repeat split; vm_compute; reflexivity.
Defined.

(** The string "v1" that [api_info] returns on a 404 stands in for the list
    of versions: "v2" is no substring of it. *)
Lemma old_server_advertises : advertises old_server fresh false.
Proof.
  exists (VList [VStr "v1"; VInt 1]), (VStr "v1"), (VInt 1).
  repeat split; vm_compute; reflexivity.
Defined.

(** ** C1 *)

Lemma api_info_not_found_witness :
  server old_server (sent fresh) (about (self fresh))
    = inr {| status_code := 404; content := [] |}
  /\ status_code {| status_code := 404; content := [] |} = 404%Z
  /\ api_info old_server fresh
     = (Return (VList [VStr "v1"; VInt 1]), log fresh (about (self fresh)))
  /\ VList [VStr "v1"; VInt 1] <> VTuple [VList [VStr "v1"]; VInt 1].
Proof.
  split; [reflexivity|]. split; [reflexivity|].
  apply (api_info_not_found old_server fresh
           {| status_code := 404; content := [] |}); reflexivity.
Defined.

(** ** C2 *)

(** The claim as the spec has it fails: the capability error comes after a
    request, the one to the info endpoint. *)
Lemma capability_error_not_before_any_request :
  two_files_to_legacy_server.1 = Raise capability_error
  /\ sent two_files_to_legacy_server.2
     = [{| rq_method := GET; rq_url := "http://localhost:8080/v1/about";
           rq_json := None;
           rq_auth := Some {| username := "user"; password := "secret" |};
           rq_verify := true |}]
  /\ sent two_files_to_legacy_server.2 <> sent fresh.
Proof. vm_compute. repeat split; discriminate. Qed.

Lemma capability_error_after_info_request_witness :
  advertises legacy_server fresh false
  /\ several (Some ["a.png"; "b.png"]) = true
  /\ send_message legacy_server hello to_alice (Some ["a.png"; "b.png"]) None
       fresh
     = (Raise capability_error, log fresh (about (self fresh))).
Proof.
  split; [exact legacy_server_advertises|]. split; [reflexivity|].
  apply (capability_error_after_info_request legacy_server hello to_alice
           (Some ["a.png"; "b.png"]) None fresh);
    [exact legacy_server_advertises | reflexivity].
Defined.

(** ** C3 *)

Lemma v2_attachments_in_one_list_witness :
  advertises v2_server fresh true
  /\ read_files v2_server (default [] (Some ["a.png"; "b.png"]))
     = inr [[x01; x02; x03]; [xff]]
  /\ exists data,
       sent (send_message v2_server hello to_alice (Some ["a.png"; "b.png"])
               (Some [[x68; x69]]) fresh).2
       = sent fresh ++ [about (self fresh);
                        request_of (self fresh) POST "/v2/send"
                          (Some (VDict data))]
       /\ data !! "base64_attachments"
          = Some (VList (map encoded (default [] (Some [[x68; x69]]))
                         ++ map encoded [[x01; x02; x03]; [xff]]))
       /\ data !! "base64_attachment" = None.
Proof.
  split; [exact v2_server_advertises|]. split; [reflexivity|].
  apply (v2_attachments_in_one_list v2_server hello to_alice
           (Some ["a.png"; "b.png"]) (Some [[x68; x69]]) fresh
           [[x01; x02; x03]; [xff]]);
    [exact v2_server_advertises | reflexivity].
Defined.

(** The list that is posted: "hi", then the two files. *)
Example v2_attachments_posted :
  map encoded (default [] (Some [[x68; x69]]))
  ++ map encoded [[x01; x02; x03]; [xff]]
  = [VStr "aGk="; VStr "AQID"; VStr "/w=="].
Proof. reflexivity. Qed.

(** ** C4 *)

Lemma legacy_attachments_witness :
  advertises legacy_server fresh false
  /\ sent (send_message legacy_server hello to_alice (Some ["a.png"])
             (Some [[x68; x69]]) fresh).2
     = sent fresh ++ [about (self fresh);
                      request_of (self fresh) POST "/v1/send"
                        (Some (VDict (<["base64_attachment" :=
                                          encoded [x01; x02; x03]]>
                                        (base_payload (self fresh) hello
                                           to_alice))))]
  /\ send_message legacy_server hello to_alice (Some ["a.png"])
       (Some [[x68; x69]]) fresh
     = send_message legacy_server hello to_alice (Some ["a.png"]) None fresh.
Proof.
  split; [exact legacy_server_advertises|].
  destruct (legacy_attachments legacy_server hello to_alice (Some ["a.png"])
              (Some [[x68; x69]]) fresh legacy_server_advertises)
    as (Hone & _ & Hdropped).
  split; [|exact Hdropped].
  apply (Hone "a.png" [x01; x02; x03]); reflexivity.
Defined.

(** ** C5 *)

Lemma mode_lets_failures_escape_witness :
  server unreachable (sent fresh) (about (self fresh))
    = inl (RequestException "Connection refused")
  /\ (mode unreachable fresh).1
     = Raise (Builtin (RequestException "Connection refused")).
Proof.
  split; [reflexivity|].
  apply (mode_lets_failures_escape unreachable fresh). left. reflexivity.
Defined.

(** [send_message] makes its test for "v2" outside its [try]: the
    exception of that test leaves it as it is. *)
Example send_message_lets_type_error_escape :
  (send_message odd_server hello to_alice None None fresh).1
  = Raise (Builtin (TypeError "argument is not iterable")).
Proof. vm_compute. reflexivity. Qed.

(** ** C6 *)



(** The error of that call carries the message of the server. *)
Example rejected_send_message :
  (send_message rejecting_server hello to_alice None None fresh).1
  = Raise (SignalCliRestApiError (VStr "Invalid recipient") None).
Proof. vm_compute. reflexivity. Qed.

(** ** C7 *)

Lemma send_endpoint_witness :
  advertises v2_server fresh true
  /\ exists posted,
       sent (send_message v2_server hello to_alice (Some ["a.png"]) None
               fresh).2
       = sent fresh ++ about (self fresh) :: posted
       /\ Forall (fun rq =>
                    rq_method rq = POST
                    /\ rq_url rq = _base_url (self fresh) +:+ "/v2/send")
            posted
       /\ (several (Some ["a.png"]) && negb true = false ->
           (exists files,
              read_files v2_server (default [] (Some ["a.png"]))
              = inr files) ->
           length posted = 1).
Proof.
  split; [exact v2_server_advertises|].
  apply (send_endpoint v2_server hello to_alice (Some ["a.png"]) None fresh
           true v2_server_advertises).
Defined.

Example send_endpoint_legacy :
  map rq_url (sent (send_message legacy_server hello to_alice None None
                      fresh).2)
  = ["http://localhost:8080/v1/about"; "http://localhost:8080/v1/send"].
Proof. vm_compute. reflexivity. Qed.

Example send_endpoint_old :
  map rq_url (sent (send_message old_server hello to_alice None None
                      fresh).2)
  = ["http://localhost:8080/v1/about"; "http://localhost:8080/v1/send"].
Proof. vm_compute. reflexivity. Qed.

(** ** C8 *)

Lemma mode_field_or_unknown_witness :
  server legacy_server (sent fresh) (about (self fresh))
    = inr {| status_code := 200; content := [] |}
  /\ json_loads legacy_server (content {| status_code := 200; content := [] |})
     = inr info_v1
  /\ (mode legacy_server fresh).1 = Return (VStr "unknown")
  /\ (mode v2_server fresh).1 = Return (VStr "normal").
Proof.
  split; [reflexivity|]. split; [reflexivity|]. split.
  - rewrite (mode_field_or_unknown legacy_server fresh
               {| status_code := 200; content := [] |}
               (<["versions" := VList [VStr "v1"]]> ∅) eq_refl eq_refl).
    vm_compute. reflexivity.
  - rewrite (mode_field_or_unknown v2_server fresh
               {| status_code := 200; content := [] |}
               (<["versions" := VList [VStr "v1"; VStr "v2"]]>
                  (<["build" := VInt 2]> (<["mode" := VStr "normal"]> ∅)))
               eq_refl eq_refl).
    vm_compute. reflexivity.
Defined.

(** ** C10 *)

Lemma attachment_keys_witness :
  (exists data attachments,
     sent (send_message v2_server hello to_alice None None fresh).2
     = sent fresh ++ [about (self fresh);
                      request_of (self fresh) POST "/v2/send"
                        (Some (VDict data))]
     /\ data !! "base64_attachments" = Some (VList attachments)
     /\ attachments = [])
  /\ (exists data,
        sent (send_message legacy_server hello to_alice (Some []) None
                fresh).2
        = sent fresh ++ [about (self fresh);
                         request_of (self fresh) POST "/v1/send"
                           (Some (VDict data))]
        /\ data !! "base64_attachment" = None).
Proof.
  split.
  - destruct (attachment_keys v2_server hello to_alice None None fresh)
      as (Hv2 & _ & _).
    destruct (Hv2 v2_server_advertises [] eq_refl)
      as (data & attachments & Hsent & Hkey & Hempty).
    exists data, attachments. repeat split; [exact Hsent | exact Hkey |].
    apply Hempty; reflexivity.
  - destruct (attachment_keys legacy_server hello to_alice (Some []) None
                fresh) as (_ & Hlegacy & _).
    apply (Hlegacy legacy_server_advertises). right. reflexivity.
Defined.

(** * Sample runs of the other methods *)

(** ** [api_info] and [mode] *)

Lemma api_info_versions_and_build_witness :
  server legacy_server (sent fresh) (about (self fresh))
    = inr {| status_code := 200; content := [] |}
  /\ status_code {| status_code := 200; content := [] |} <> 404%Z
  /\ (api_info legacy_server fresh).1
     = Return (VTuple [VList [VStr "v1"]; VInt 1])
  /\ (api_info v2_server fresh).1
     = Return (VTuple [VList [VStr "v1"; VStr "v2"]; VInt 2]).
Proof.
  split; [reflexivity|]. split; [discriminate|]. split.
  - rewrite (api_info_versions_and_build legacy_server fresh
               {| status_code := 200; content := [] |}
               (<["versions" := VList [VStr "v1"]]> ∅)
               (VList [VStr "v1"]) eq_refl ltac:(discriminate) eq_refl
               eq_refl).
    vm_compute. reflexivity.
  - rewrite (api_info_versions_and_build v2_server fresh
               {| status_code := 200; content := [] |}
               (<["versions" := VList [VStr "v1"; VStr "v2"]]>
                  (<["build" := VInt 2]> (<["mode" := VStr "normal"]> ∅)))
               (VList [VStr "v1"; VStr "v2"]) eq_refl ltac:(discriminate)
               eq_refl eq_refl).
    vm_compute. reflexivity.
Defined.

Lemma api_info_failure_wrapped_witness :
  (api_info unreachable fresh).1
  = Raise (wrapped ApiInfo (RequestException "Connection refused"))
  /\ exists e,
       wrapped ApiInfo (RequestException "Connection refused")
       = wrapped ApiInfo e
       /\ (server unreachable (sent fresh) (about (self fresh)) = inl e
           \/ exists resp,
                server unreachable (sent fresh) (about (self fresh))
                = inr resp
                /\ status_code resp <> 404%Z
                /\ (json_loads unreachable (content resp) = inl e
                    \/ exists data,
                         json_loads unreachable (content resp) = inr data
                         /\ getitem data "versions" = inl e)).
Proof.
  split; [reflexivity|].
  apply (api_info_failure_wrapped unreachable fresh
           (wrapped ApiInfo (RequestException "Connection refused"))).
  reflexivity.
Defined.

(** An info body that is a list: [mode] lets the [TypeError] of its lookup
    through. *)
Lemma mode_raises_no_api_error_witness :
  (mode list_server fresh).1
  = Raise (Builtin (TypeError "indices must be integers"))
  /\ exists e,
       Builtin (TypeError "indices must be integers") = Builtin e
       /\ is_SignalCliRestApiError
            (Builtin (TypeError "indices must be integers")) = false
       /\ (server list_server (sent fresh) (about (self fresh)) = inl e
           \/ exists resp,
                server list_server (sent fresh) (about (self fresh))
                = inr resp
                /\ (json_loads list_server (content resp) = inl e
                    \/ exists data,
                         json_loads list_server (content resp) = inr data
                         /\ getitem data "mode" = inl e
                         /\ forall d, data <> VDict d)).
Proof.
  split; [reflexivity|].
  apply (mode_raises_no_api_error list_server fresh
           (Builtin (TypeError "indices must be integers"))).
  reflexivity.
Defined.

(** ** One call, one request *)

Lemma single_request_issued_witness :
  single_request (self fresh) (DeleteAttachment "42")
  = Some (request_of (self fresh) DELETE "/v1/attachments/42" None)
  /\ sent (call no_content_server (DeleteAttachment "42") fresh).2
     = sent fresh
       ++ [request_of (self fresh) DELETE "/v1/attachments/42" None]
  /\ rq_method (request_of (self fresh) DELETE "/v1/attachments/42" None)
     = endpoint_method (DeleteAttachment "42")
  /\ configured (self fresh)
       (request_of (self fresh) DELETE "/v1/attachments/42" None).
Proof.
  split; [reflexivity|].
  apply (single_request_issued no_content_server (DeleteAttachment "42")
           fresh).
  reflexivity.
Defined.

(** ** What the answer makes of the call *)

Lemma transport_failure_wrapped_witness :
  Receive <> Mode
  /\ sent (call unreachable Receive fresh).2
     = sent fresh ++ []
       ++ [request_of (self fresh) GET "/v1/receive/+4912345" None]
  /\ server unreachable (sent fresh ++ [])
       (request_of (self fresh) GET "/v1/receive/+4912345" None)
     = inl (RequestException "Connection refused")
  /\ (call unreachable Receive fresh).1
     = Raise (SignalCliRestApiError
                (VStr "Couldn't receive Signal Messenger data: ")
                (Some (Builtin (RequestException "Connection refused")))).
Proof.
  split; [discriminate|]. split; [vm_compute; reflexivity|].
  split; [reflexivity|].
  apply (transport_failure_wrapped unreachable Receive fresh []
           (request_of (self fresh) GET "/v1/receive/+4912345" None)
           (RequestException "Connection refused"));
    [discriminate | vm_compute; reflexivity | reflexivity | reflexivity].
Defined.

Lemma rejected_unparsable_body_witness :
  checks_status ListAttachments = true
  /\ sent (call failing_server ListAttachments fresh).2
     = sent fresh ++ []
       ++ [request_of (self fresh) GET "/v1/attachments" None]
  /\ server failing_server (sent fresh ++ [])
       (request_of (self fresh) GET "/v1/attachments" None)
     = inr {| status_code := 500; content := [] |}
  /\ accepted ListAttachments 500 = false
  /\ response_json failing_server {| status_code := 500; content := [] |}
     = inl (JSONDecodeError "Expecting value")
  /\ (call failing_server ListAttachments fresh).1
     = Raise (SignalCliRestApiError (VStr "Couldn't list attachments: ")
                (Some (Builtin (JSONDecodeError "Expecting value")))).
Proof.
  split; [reflexivity|]. split; [vm_compute; reflexivity|].
  split; [reflexivity|]. split; [reflexivity|]. split; [reflexivity|].
  apply (rejected_unparsable_body failing_server ListAttachments fresh []
           (request_of (self fresh) GET "/v1/attachments" None)
           {| status_code := 500; content := [] |}
           (JSONDecodeError "Expecting value"));
    [reflexivity | vm_compute; reflexivity | reflexivity | reflexivity
    | reflexivity | reflexivity].
Defined.

(** A 204 without a body: [delete_attachment] returns. *)
Lemma accepted_without_result_witness :
  sent (call no_content_server (DeleteAttachment "42") fresh).2
  = sent fresh ++ []
    ++ [request_of (self fresh) DELETE "/v1/attachments/42" None]
  /\ server no_content_server (sent fresh ++ [])
       (request_of (self fresh) DELETE "/v1/attachments/42" None)
     = inr {| status_code := 204; content := [] |}
  /\ accepted (DeleteAttachment "42") 204 = true
  /\ response_json no_content_server {| status_code := 204; content := [] |}
     = inl (JSONDecodeError "Expecting value")
  /\ (call no_content_server (DeleteAttachment "42") fresh).1 = Return VNone.
Proof.
  split; [vm_compute; reflexivity|]. split; [reflexivity|].
  split; [reflexivity|]. split; [reflexivity|].
  apply (accepted_without_result no_content_server (DeleteAttachment "42")
           fresh []
           (request_of (self fresh) DELETE "/v1/attachments/42" None)
           {| status_code := 204; content := [] |});
    [exact I | vm_compute; reflexivity | reflexivity | reflexivity
    | reflexivity].
Defined.

Lemma listing_result_witness :
  single_request (self fresh) ListGroups
  = Some (request_of (self fresh) GET "/v1/groups/+4912345" None)
  /\ server group_server (sent fresh)
       (request_of (self fresh) GET "/v1/groups/+4912345" None)
     = inr {| status_code := 200; content := [] |}
  /\ (call group_server ListGroups fresh).1
     = Return (VDict (<["id" := VStr "group.c2lnbmFs"]> ∅))
  /\ (call attachment_server ListGroups fresh).1
     = Raise (wrapped ListGroups (JSONDecodeError "Expecting value")).
Proof.
  split; [reflexivity|]. split; [reflexivity|]. split.
  - rewrite (listing_result group_server ListGroups fresh
               (request_of (self fresh) GET "/v1/groups/+4912345" None)
               {| status_code := 200; content := [] |}
               (or_introl eq_refl) eq_refl eq_refl eq_refl).
    reflexivity.
  - rewrite (listing_result attachment_server ListGroups fresh
               (request_of (self fresh) GET "/v1/groups/+4912345" None)
               {| status_code := 200; content := [x89; x50; x4e; x47] |}
               (or_introl eq_refl) eq_refl eq_refl eq_refl).
    reflexivity.
Defined.

Lemma create_group_result_witness :
  server group_server (sent fresh)
    (request_of (self fresh) POST ("/v1/groups/" +:+ _number (self fresh))
       (Some (VDict (group_payload (VStr "Family") to_alice))))
  = inr {| status_code := 200; content := [] |}
  /\ response_json group_server {| status_code := 200; content := [] |}
     = inr (VDict (<["id" := VStr "group.c2lnbmFs"]> ∅))
  /\ (create_group group_server (VStr "Family") to_alice fresh).1
     = Return (VStr "group.c2lnbmFs").
Proof.
  split; [reflexivity|]. split; [reflexivity|].
  rewrite (create_group_result group_server (VStr "Family") to_alice fresh
             {| status_code := 200; content := [] |}
             (<["id" := VStr "group.c2lnbmFs"]> ∅)
             eq_refl (or_introl eq_refl) eq_refl).
  vm_compute. reflexivity.
Defined.

(** The bytes come back as they are, though they are no JSON. *)
Lemma get_attachment_returns_content_witness :
  server attachment_server (sent fresh)
    (request_of (self fresh) GET ("/v1/attachments/" +:+ "42") None)
  = inr {| status_code := 200; content := [x89; x50; x4e; x47] |}
  /\ response_json attachment_server
       {| status_code := 200; content := [x89; x50; x4e; x47] |}
     = inl (JSONDecodeError "Expecting value")
  /\ (get_attachment attachment_server "42" fresh).1
     = Return (VBytes [x89; x50; x4e; x47]).
Proof.
  split; [reflexivity|]. split; [reflexivity|].
  apply (get_attachment_returns_content attachment_server "42" fresh
           {| status_code := 200; content := [x89; x50; x4e; x47] |});
    reflexivity.
Defined.

Lemma rejected_body_not_an_object_witness :
  sent (call plain_text_server (GetAttachment "42") fresh).2
  = sent fresh ++ []
    ++ [request_of (self fresh) GET "/v1/attachments/42" None]
  /\ server plain_text_server (sent fresh ++ [])
       (request_of (self fresh) GET "/v1/attachments/42" None)
     = inr {| status_code := 500; content := [] |}
  /\ response_json plain_text_server {| status_code := 500; content := [] |}
     = inr (VStr "internal error")
  /\ ((call plain_text_server (GetAttachment "42") fresh).1
      = Raise (SignalCliRestApiError
                 (VStr (generic_message (GetAttachment "42"))) None)
      \/ exists detail,
           (call plain_text_server (GetAttachment "42") fresh).1
           = Raise (wrapped (GetAttachment "42") (TypeError detail))).
Proof.
  split; [vm_compute; reflexivity|]. split; [reflexivity|].
  split; [reflexivity|].
  apply (rejected_body_not_an_object plain_text_server (GetAttachment "42")
           fresh []
           (request_of (self fresh) GET "/v1/attachments/42" None)
           {| status_code := 500; content := [] |} (VStr "internal error"));
    [reflexivity | vm_compute; reflexivity | reflexivity | reflexivity
    | reflexivity | reflexivity | discriminate].
Defined.

(** The word "error" in the text makes it the [TypeError] of the lookup. *)
Example rejected_plain_text :
  (get_attachment plain_text_server "42" fresh).1
  = Raise (SignalCliRestApiError (VStr "Couldn't get attachment: ")
             (Some (Builtin (TypeError "indices must be integers")))).
Proof. vm_compute. reflexivity. Qed.

(** ** [update_profile] *)

Lemma update_profile_request_witness :
  avatar_read no_content_server (Some "a.png") (Some [x01; x02; x03])
  /\ sent (update_profile no_content_server (VStr "Alice") (Some "a.png")
             fresh).2
     = sent fresh
       ++ [request_of (self fresh) PUT "/v1/profiles/+4912345"
             (Some (VDict (<["base64_avatar" := VStr "AQID"]>
                             (<["name" := VStr "Alice"]> ∅))))].
Proof.
  split; [reflexivity|].
  apply (update_profile_request no_content_server (VStr "Alice")
           (Some "a.png") (Some [x01; x02; x03]) fresh).
  reflexivity.
Defined.

Lemma update_profile_unreadable_avatar_witness :
  open_read no_content_server "missing.png"
  = inl (OSError "No such file or directory")
  /\ update_profile no_content_server (VStr "Alice") (Some "missing.png")
       fresh
     = (Raise (SignalCliRestApiError (VStr "Couldn't update profile: ")
                 (Some (Builtin (OSError "No such file or directory")))),
        fresh).
Proof.
  split; [reflexivity|].
  apply (update_profile_unreadable_avatar no_content_server (VStr "Alice")
           "missing.png" fresh (OSError "No such file or directory")).
  reflexivity.
Defined.

(** ** [send_message] *)

Lemma send_message_info_failure_witness :
  (api_info unreachable fresh).1
  = Raise (wrapped ApiInfo (RequestException "Connection refused"))
  /\ send_message unreachable hello to_alice None None fresh
     = (Raise (SignalCliRestApiError
                 (VStr "Couldn't determine REST API version")
                 (Some (Builtin (RequestException "Connection refused")))),
        log fresh (about (self fresh))).
Proof.
  split; [reflexivity|].
  apply (send_message_info_failure unreachable hello to_alice None None
           fresh (wrapped ApiInfo (RequestException "Connection refused"))).
  reflexivity.
Defined.

(** The second of two files is missing: nothing is posted. *)
Lemma send_message_unreadable_file_witness :
  advertises v2_server fresh true
  /\ read_files v2_server (default [] (Some ["a.png"; "missing.png"]))
     = inl (OSError "No such file or directory")
  /\ send_message v2_server hello to_alice (Some ["a.png"; "missing.png"])
       None fresh
     = (Raise (SignalCliRestApiError (VStr "Couldn't send signal message")
                 (Some (Builtin (OSError "No such file or directory")))),
        log fresh (about (self fresh))).
Proof.
  split; [exact v2_server_advertises|]. split; [reflexivity|].
  apply (send_message_unreadable_file v2_server hello to_alice
           (Some ["a.png"; "missing.png"]) None fresh true
           (OSError "No such file or directory") v2_server_advertises).
  reflexivity.
Defined.

Lemma send_message_error_classes_witness :
  (send_message odd_server hello to_alice None None fresh).1
  = Raise (Builtin (TypeError "argument is not iterable"))
  /\ (is_SignalCliRestApiError
        (Builtin (TypeError "argument is not iterable")) = true
      \/ exists detail,
           Builtin (TypeError "argument is not iterable")
           = Builtin (TypeError detail)).
Proof.
  split; [vm_compute; reflexivity|].
  apply (send_message_error_classes odd_server hello to_alice None None
           fresh (Builtin (TypeError "argument is not iterable"))).
  vm_compute. reflexivity.
Defined.

(** ** The errors of the other methods *)

Lemma only_api_errors_witness :
  (call unreachable ListGroups fresh).1
  = Raise (wrapped ListGroups (RequestException "Connection refused"))
  /\ exists msg cause,
       wrapped ListGroups (RequestException "Connection refused")
       = SignalCliRestApiError msg cause.
Proof.
  split; [vm_compute; reflexivity|].
  apply (only_api_errors unreachable ListGroups fresh
           (wrapped ListGroups (RequestException "Connection refused")));
    [discriminate | discriminate | vm_compute; reflexivity].
Defined.

(** ** A server without an info endpoint *)

Lemma not_found_means_legacy_witness :
  server old_server (sent fresh) (about (self fresh))
  = inr {| status_code := 404; content := [] |}
  /\ advertises old_server fresh false
  /\ (several (Some ["a.png"; "b.png"]) = true ->
      send_message old_server hello to_alice (Some ["a.png"; "b.png"]) None
        fresh
      = (Raise capability_error, log fresh (about (self fresh))))
  /\ (Some ["a.png"; "b.png"] = None ->
      sent (send_message old_server hello to_alice
              (Some ["a.png"; "b.png"]) None fresh).2
      = sent fresh ++ [about (self fresh);
                       request_of (self fresh) POST "/v1/send"
                         (Some (VDict (base_payload (self fresh) hello
                                         to_alice)))]).
Proof.
  split; [reflexivity|].
  apply (not_found_means_legacy old_server hello to_alice
           (Some ["a.png"; "b.png"]) None fresh
           {| status_code := 404; content := [] |}); reflexivity.
Defined.
